(** * dsmr_custom: configuration validation, code generation and dispatch

    A shallow embedding of the Python side of the [dsmr_custom] ESPHome
    component ([components/dsmr_custom/__init__.py], [sensor.py],
    [text_sensor.py]) together with the properties its specification
    states about it.

    Conventions.
    - A Python [str] is a Rocq [string]: a sequence of code points below
      256.  A Python [int] is a [Z].
    - A validator either returns a value or raises [cv.Invalid]; this is
      the [outcome] type, with the message carried by [Invalid].
    - Functions keep the names they have in the source. *)

From stdpp Require Import gmap strings list.
From Stdlib Require Import ZArith Ascii DecimalString DecimalZ DecimalPos.

Open Scope Z_scope.

(** ** Validation outcomes *)

Inductive outcome (A : Type) : Type :=
| Valid (a : A)
| Invalid (msg : string).
Arguments Valid {A} a.
Arguments Invalid {A} msg.

#[global] Instance outcome_ret : MRet outcome := fun A a => Valid a.
#[global] Instance outcome_bind : MBind outcome := fun A B f m =>
  match m with
  | Valid a => f a
  | Invalid msg => Invalid msg
  end.
#[global] Instance outcome_fmap : FMap outcome := fun A B f m =>
  match m with
  | Valid a => Valid (f a)
  | Invalid msg => Invalid msg
  end.

Definition is_valid {A} (m : outcome A) : bool :=
  match m with
  | Valid _ => true
  | Invalid _ => false
  end.

(** [for x in xs: ...] where the body may raise: the first raise ends the
    loop. *)
Fixpoint for_each {A B} (f : A → outcome B) (xs : list A) : outcome (list B) :=
  match xs with
  | [] => Valid []
  | x :: xs' =>
      y ← f x;
      ys ← for_each f xs';
      Valid (y :: ys)
  end.

(** ** Python built-ins used by the source *)

Module Py.

(** [str(n)] for an [int]. *)
Definition str_of_int (n : Z) : string :=
  NilZero.string_of_int (Z.to_int n).

(** [len(s)] for a [str]. *)
Definition len (s : string) : Z := Z.of_nat (String.length s).

(** [sep.join(xs)]. *)
Definition join (sep : string) (xs : list string) : string :=
  String.concat sep xs.

(** [s.replace(old, new)] where [old] and [new] are single characters. *)
Fixpoint replace (old new : ascii) (s : string) : string :=
  match s with
  | EmptyString => EmptyString
  | String c s' =>
      String (if Ascii.eqb c old then new else c) (replace old new s')
  end.

(** [s.lower()], one character below 256 at a time: the ASCII capitals
    and the Latin-1 capitals U+00C0 to U+00DE (U+00D7 is the
    multiplication sign). *)
Definition lower_char (c : ascii) : ascii :=
  let n := N_of_ascii c in
  if (((65 <=? n) && (n <=? 90))
      || ((192 <=? n) && (n <=? 222) && negb (n =? 215)))%N
  then ascii_of_N (n + 32) else c.

Fixpoint lower (s : string) : string :=
  match s with
  | EmptyString => EmptyString
  | String c s' => String (lower_char c) (lower s')
  end.

(** Value of a character as a digit in base 16, as [int] reads it. *)
Definition hex_value (c : ascii) : option Z :=
  let n := Z.of_N (N_of_ascii c) in
  if (48 <=? n) && (n <=? 57) then Some (n - 48)
  else if (97 <=? n) && (n <=? 102) then Some (n - 87)
  else if (65 <=? n) && (n <=? 70) then Some (n - 55)
  else None.

Definition is_hex (c : ascii) : bool :=
  match hex_value c with Some _ => true | None => false end.

(** The characters [int] strips around a number: the ASCII white space
    (tab, line feed, vertical tab, form feed, carriage return, space)
    and, below 256, the two code points U+0085 and U+00A0 that it turns
    into a space first. *)
Definition is_space (c : ascii) : bool :=
  let n := Z.of_N (N_of_ascii c) in
  ((9 <=? n) && (n <=? 13)) || (n =? 32) || (n =? 133) || (n =? 160).

(** [str.isspace] on one character below 256 (also what [\s] matches in
    a regular expression on [str]). *)
Definition isspace (c : ascii) : bool :=
  let n := Z.of_N (N_of_ascii c) in
  ((9 <=? n) && (n <=? 13)) || ((28 <=? n) && (n <=? 32))
  || (n =? 133) || (n =? 160).

Fixpoint skip_while (p : ascii → bool) (s : string) : string :=
  match s with
  | String c s' => if p c then skip_while p s' else s
  | EmptyString => EmptyString
  end.

Definition lstrip (s : string) : string := skip_while is_space s.

(** The digit loop of [int(s, 16)]: hexadecimal digits, with single
    underscores allowed between two digits.  [prev_us] tells whether the
    previous character was an underscore; [acc] is [None] until a
    character has been read.  Returns the value and the unread rest. *)
Fixpoint digits16 (prev_us : bool) (acc : option Z) (s : string)
  : option (Z * string) :=
  match s with
  | String c s' =>
      match hex_value c with
      | Some d => digits16 false (Some (default 0 acc * 16 + d)) s'
      | None =>
          if Ascii.eqb c "_" then
            if prev_us then None
            else match acc with
                 | None => None
                 | Some _ => digits16 true acc s'
                 end
          else if prev_us then None
          else (fun v => (v, s)) <$> acc
      end
  | EmptyString => if prev_us then None else (fun v => (v, "")) <$> acc
  end.

(** [int(s, 16)]: optional white space, an optional sign, an optional
    [0x] or [0X] prefix (which may be followed by one underscore), at
    least one digit, optional white space.  [None] is [ValueError]. *)
Definition int16 (s : string) : option Z :=
  let s1 := lstrip s in
  let '(sign, s2) :=
    match s1 with
    | String "+" r => (1, r)
    | String "-" r => (-1, r)
    | _ => (1, s1)
    end in
  let s3 :=
    match s2 with
    | String "0" (String "x" r) | String "0" (String "X" r) =>
        match r with
        | String "_" r' => r'
        | _ => r
        end
    | _ => s2
    end in
  '(v, rest) ← digits16 false None s3;
  match lstrip rest with
  | EmptyString => Some (sign * v)
  | _ => None
  end.

Definition hex_digit_upper (d : Z) : ascii :=
  ascii_of_N (Z.to_N (if d <? 10 then 48 + d else 55 + d)).

(** Upper-case hexadecimal digits of a non-negative number, most
    significant first; [fuel] bounds the number of digits. *)
Fixpoint hex_upper_aux (fuel : nat) (n : Z) (acc : string) : string :=
  match fuel with
  | O => acc
  | S fuel' =>
      let acc' := String (hex_digit_upper (n mod 16)) acc in
      if n / 16 =? 0 then acc' else hex_upper_aux fuel' (n / 16) acc'
  end.

Definition hex_upper (n : Z) : string :=
  hex_upper_aux (S (Z.to_nat (Z.log2 n))) n "".

(** [f"{n:02X}"]: upper-case hexadecimal, zero-padded to two characters,
    the sign (if any) counted in the width and written first. *)
Definition format_02X (n : Z) : string :=
  let digits := hex_upper (Z.abs n) in
  if n <? 0 then "-" +:+ digits
  else if Nat.ltb (String.length digits) 2 then "0" +:+ digits
  else digits.

End Py.

(** ** ESPHome validators used by the schema ([esphome.config_validation])

    These belong to ESPHome, not to the component; they are reproduced for
    the Python types the component hands them, with their messages
    abridged. *)

(** [esphome.core.TimePeriod]: every unit is optional, as the keyword
    arguments of the constructor are.  Quantities are whole numbers here. *)
Record TimePeriod : Type := {
  microseconds : option Z;
  milliseconds : option Z;
  seconds : option Z;
  minutes : option Z;
  hours : option Z;
  days : option Z;
}.

Definition TimePeriod_empty : TimePeriod :=
  {| microseconds := None; milliseconds := None; seconds := None;
     minutes := None; hours := None; days := None |}.

Definition total_days (t : TimePeriod) : Z := default 0 (days t).
Definition total_hours (t : TimePeriod) : Z :=
  total_days t * 24 + default 0 (hours t).
Definition total_minutes (t : TimePeriod) : Z :=
  total_hours t * 60 + default 0 (minutes t).
Definition total_seconds (t : TimePeriod) : Z :=
  total_minutes t * 60 + default 0 (seconds t).
Definition total_milliseconds (t : TimePeriod) : Z :=
  total_seconds t * 1000 + default 0 (milliseconds t).
Definition total_microseconds (t : TimePeriod) : Z :=
  total_milliseconds t * 1000 + default 0 (microseconds t).

Module cv.

(** [cv.string_strict] returns a [str] unchanged (and rejects every other
    type, which a [string] cannot be). *)
Definition string_strict (value : string) : outcome string := Valid value.

(** [cv.int_] returns an [int] unchanged. *)
Definition int_ (value : Z) : outcome Z := Valid value.

(** [cv.boolean] returns a [bool] unchanged. *)
Definition boolean (value : bool) : outcome bool := Valid value.

(** [cv.Range(min, max, min_included, max_included)] on numbers. *)
Definition Range (min max : option Z) (min_included max_included : bool)
    (v : Z) : outcome Z :=
  _ ← match min with
      | Some lo =>
          if min_included then
            if negb (lo <=? v) then
              Invalid ("value must be at least " +:+ Py.str_of_int lo)
            else Valid ()
          else
            if negb (lo <? v) then
              Invalid ("value must be higher than " +:+ Py.str_of_int lo)
            else Valid ()
      | None => Valid ()
      end;
  _ ← match max with
      | Some hi =>
          if max_included then
            if negb (v <=? hi) then
              Invalid ("value must be at most " +:+ Py.str_of_int hi)
            else Valid ()
          else
            if negb (v <? hi) then
              Invalid ("value must be lower than " +:+ Py.str_of_int hi)
            else Valid ()
      | None => Valid ()
      end;
  Valid v.

(** [cv.positive_int = All(int_, Range(min=0))] *)
Definition positive_int (value : Z) : outcome Z :=
  v ← int_ value; Range (Some 0) None true true v.

(** [cv.int_range(min, max) = All(int_, Range(min=min, max=max,
    min_included=True, max_included=True))] *)
Definition int_range (min max : Z) (value : Z) : outcome Z :=
  v ← int_ value; Range (Some min) (Some max) true true v.

Definition is_digit (c : ascii) : bool :=
  let n := Z.of_N (N_of_ascii c) in (48 <=? n) && (n <=? 57).

(** Leading decimal digits of a string, as a number, and the rest. *)
Fixpoint leading_number (acc : option Z) (s : string) : option Z * string :=
  match s with
  | String c s' =>
      if is_digit c then
        leading_number (Some (default 0 acc * 10 + (Z.of_N (N_of_ascii c) - 48))) s'
      else (acc, s)
  | EmptyString => (acc, s)
  end.

(** The [unit_to_kwarg] table of [time_period_str_unit]. *)
Definition unit_to_kwarg (unit : string) (n : Z) : option TimePeriod :=
  if String.eqb unit "us" || String.eqb unit "microseconds" then
    Some {| microseconds := Some n; milliseconds := None; seconds := None;
            minutes := None; hours := None; days := None |}
  else if String.eqb unit "ms" || String.eqb unit "milliseconds" then
    Some {| microseconds := None; milliseconds := Some n; seconds := None;
            minutes := None; hours := None; days := None |}
  else if String.eqb unit "s" || String.eqb unit "sec" || String.eqb unit "seconds" then
    Some {| microseconds := None; milliseconds := None; seconds := Some n;
            minutes := None; hours := None; days := None |}
  else if String.eqb unit "min" || String.eqb unit "minutes" then
    Some {| microseconds := None; milliseconds := None; seconds := None;
            minutes := Some n; hours := None; days := None |}
  else if String.eqb unit "h" || String.eqb unit "hours" then
    Some {| microseconds := None; milliseconds := None; seconds := None;
            minutes := None; hours := Some n; days := None |}
  else if String.eqb unit "d" || String.eqb unit "days" then
    Some {| microseconds := None; milliseconds := None; seconds := None;
            minutes := None; hours := None; days := Some n |}
  else None.

(** [cv.time_period] on a string of the form number, optional white
    space, unit ([time_period_str_unit]).  Only unsigned whole numbers
    are reproduced: a sign, a fraction, the [h:m:s] form and the dict
    form are outside this model and are reported as [Invalid]. *)
Definition time_period (value : string) : outcome TimePeriod :=
  match leading_number None value with
  | (Some n, rest) =>
      match unit_to_kwarg (Py.skip_while Py.isspace rest) n with
      | Some t => Valid t
      | None => Invalid ("Expected time period with unit, got " +:+ value)
      end
  | (None, _) => Invalid ("Expected time period with unit, got " +:+ value)
  end.

(** [cv.positive_time_period = All(time_period, Range(min=TimePeriod()))];
    time periods compare by their total length. *)
Definition positive_time_period (value : string) : outcome TimePeriod :=
  t ← time_period value;
  if negb (total_microseconds TimePeriod_empty <=? total_microseconds t) then
    Invalid "value must be at least 0s"
  else Valid t.

(** [cv.positive_time_period_milliseconds =
    All(positive_time_period, time_period_in_milliseconds_)] *)
Definition positive_time_period_milliseconds (value : string)
  : outcome TimePeriod :=
  t ← positive_time_period value;
  match microseconds t with
  | Some us =>
      if negb (us =? 0) then Invalid "Maximum precision is milliseconds"
      else Valid t
  | None => Valid t
  end.

(** [cv.Optional(key, default=d)]: an absent key takes the default, and
    the default goes through the key's validator like a supplied value. *)
Definition Optional_default {A B} (d : A) (validator : A → outcome B)
    (supplied : option A) : outcome B :=
  validator (default d supplied).

(** [cv.Optional(key)]: an absent key stays absent. *)
Definition Optional {A B} (validator : A → outcome B)
    (supplied : option A) : outcome (option B) :=
  match supplied with
  | Some v => Some <$> validator v
  | None => Valid None
  end.

End cv.

(** ** [__init__.py]: the decryption key *)

(** [[value[i : i + 2] for i in range(0, len(value), 2)]] *)
Fixpoint parts_of (value : string) : list string :=
  match value with
  | EmptyString => []
  | String a EmptyString => [String a EmptyString]
  | String a (String b rest) => String a (String b EmptyString) :: parts_of rest
  end.

(** [_validate_key] of [__init__.py]. *)
Definition _validate_key (value : string) : outcome string :=
  value ← cv.string_strict value;
  if String.eqb value "" then Valid ""
  else
    let parts := parts_of value in
    if negb (Nat.eqb (length parts) 16) then
      Invalid ("Decryption key must consist of 16 hexadecimal numbers (32 characters), got "
               +:+ Py.str_of_int (Py.len value) +:+ " characters.")
    else if existsb (fun part => negb (Nat.eqb (String.length part) 2)) parts then
      Invalid "Decryption key must be in format XXXXXX... (32 hex chars)."
    else
      parts_int ← for_each (fun part =>
                     match Py.int16 part with
                     | Some n => Valid n
                     | None =>
                         Invalid ("Decryption key part '" +:+ part
                                  +:+ "' is not a valid hexadecimal number.")
                     end) parts;
      Valid (Py.join "" (Py.format_02X <$> parts_int)).

(** ** [__init__.py]: the hub's configuration schema *)

(** A validated [request_pin] ([pins.gpio_output_pin_schema], ESPHome's own
    and platform dependent): carried as it is. *)
Record Pin : Type := { pin_number : Z; pin_inverted : bool }.

(** One entry of [custom_obis_sensors] as the user writes it; [None] is an
    absent key. *)
Record CustomObisSensorYaml : Type := {
  y_code : string;
  y_name : string;
  y_type : string;
  y_unit_of_measurement : option string;
  y_accuracy_decimals : option Z;
  y_device_class : option string;
  y_state_class : option string;
  y_icon : option string;
  y_force_update : option bool;
  y_disabled_by_default : option bool;
  y_entity_category : option string;
  y_internal : option bool;
}.

(** The same entry after [CUSTOM_OBIS_SENSOR_SCHEMA]. *)
Record CustomObisSensor : Type := {
  code : string;
  name : string;
  type : string;
  unit_of_measurement : option string;
  accuracy_decimals : option Z;
  device_class : option string;
  state_class : option string;
  icon : option string;
  force_update : bool;
  disabled_by_default : bool;
  entity_category : string;
  internal : bool;
}.

(** [cv.enum({"sensor": "sensor", "text_sensor": "text_sensor"}, lower=True)] *)
Definition sensor_type_enum (value : string) : outcome string :=
  let v := Py.lower value in
  if String.eqb v "sensor" then Valid "sensor"
  else if String.eqb v "text_sensor" then Valid "text_sensor"
  else Invalid ("Unknown value '" +:+ v +:+ "'").

(** [CUSTOM_OBIS_SENSOR_SCHEMA].  The validators of the unit, device class,
    state class, icon and entity category are ESPHome's; their values are
    carried as written. *)
Definition CUSTOM_OBIS_SENSOR_SCHEMA (y : CustomObisSensorYaml)
  : outcome CustomObisSensor :=
  c ← cv.string_strict (y_code y);
  n ← cv.string_strict (y_name y);
  t ← sensor_type_enum (y_type y);
  u ← cv.Optional cv.string_strict (y_unit_of_measurement y);
  a ← cv.Optional cv.positive_int (y_accuracy_decimals y);
  d ← cv.Optional cv.string_strict (y_device_class y);
  fu ← cv.Optional_default false cv.boolean (y_force_update y);
  dd ← cv.Optional_default false cv.boolean (y_disabled_by_default y);
  ec ← cv.Optional_default "" cv.string_strict (y_entity_category y);
  i ← cv.Optional_default false cv.boolean (y_internal y);
  Valid {| code := c; name := n; type := t;
           unit_of_measurement := u; accuracy_decimals := a;
           device_class := d; state_class := y_state_class y;
           icon := y_icon y; force_update := fu;
           disabled_by_default := dd; entity_category := ec;
           internal := i |}.

(** The hub's YAML block as the user writes it; [None] is an absent key.
    [y_id] and [y_uart_id] are the resolved component IDs. *)
Record DsmrYaml : Type := {
  y_id : string;
  y_uart_id : string;
  y_max_telegram_length : option Z;
  y_decryption_key : option string;
  y_request_pin : option Pin;
  y_request_interval : option string;
  y_receive_timeout : option string;
  y_crc_check : option bool;
  y_gas_mbus_id : option Z;
  y_water_mbus_id : option Z;
  y_custom_obis_sensors : option (list CustomObisSensorYaml);
  y_platformio_options : option (option (list string));
}.

(** The validated configuration that [to_code] receives.  An optional key
    without a default stays an [option]; [platformio_options] holds its
    optional [lib_deps]. *)
Record DsmrConfig : Type := {
  CONF_ID : string;
  CONF_UART_ID : string;
  CONF_MAX_TELEGRAM_LENGTH : Z;
  CONF_DECRYPTION_KEY : option string;
  CONF_REQUEST_PIN : option Pin;
  CONF_REQUEST_INTERVAL : TimePeriod;
  CONF_RECEIVE_TIMEOUT : TimePeriod;
  CONF_CRC_CHECK : bool;
  CONF_GAS_MBUS_ID : Z;
  CONF_WATER_MBUS_ID : Z;
  CONF_CUSTOM_OBIS_SENSORS : option (list CustomObisSensor);
  CONF_PLATFORMIO_OPTIONS : option (list string);
}.

(** [CONFIG_SCHEMA] of [__init__.py].  The first failing key decides the
    message. *)
Definition CONFIG_SCHEMA (y : DsmrYaml) : outcome DsmrConfig :=
  mtl ← cv.Optional_default 1500 cv.positive_int (y_max_telegram_length y);
  key ← cv.Optional _validate_key (y_decryption_key y);
  ri ← cv.Optional_default "0s" cv.positive_time_period_milliseconds
         (y_request_interval y);
  rt ← cv.Optional_default "200ms" cv.positive_time_period_milliseconds
         (y_receive_timeout y);
  crc ← cv.Optional_default true cv.boolean (y_crc_check y);
  gas ← cv.Optional_default 1 (cv.int_range 0 255) (y_gas_mbus_id y);
  water ← cv.Optional_default 2 (cv.int_range 0 255) (y_water_mbus_id y);
  custom ← cv.Optional (for_each CUSTOM_OBIS_SENSOR_SCHEMA)
             (y_custom_obis_sensors y);
  Valid {| CONF_ID := y_id y;
           CONF_UART_ID := y_uart_id y;
           CONF_MAX_TELEGRAM_LENGTH := mtl;
           CONF_DECRYPTION_KEY := key;
           CONF_REQUEST_PIN := y_request_pin y;
           CONF_REQUEST_INTERVAL := ri;
           CONF_RECEIVE_TIMEOUT := rt;
           CONF_CRC_CHECK := crc;
           CONF_GAS_MBUS_ID := gas;
           CONF_WATER_MBUS_ID := water;
           CONF_CUSTOM_OBIS_SENSORS := custom;
           CONF_PLATFORMIO_OPTIONS := default None (y_platformio_options y) |}.

(** ** Generated code

    [to_code] does not run the meter: it emits C++ statements and build
    settings through [esphome.codegen].  Each constructor is the [cg]
    call of the same name; the list is in emission order. *)

(** A Python value stored in a configuration dict. *)
Inductive value : Type :=
| VStr (s : string)
| VInt (n : Z)
| VBool (b : bool)
| VID (id : string).

(** A configuration dict, in insertion order. *)
Definition dict : Type := list (string * value).

(** An argument of a generated call. *)
Inductive expr : Type :=
| EInt (n : Z)
| EBool (b : bool)
| EStr (s : string)
| EVar (id : string)
| EPin (p : Pin)
| EEntity (conf : dict)
| RawExpression (text : string).

Inductive statement : Type :=
| new_Pvariable (id : string) (args : list expr)
| register_component (var : expr)
| add_library (name : string) (version : option string)
| add_build_flag (flag : string)
| gpio_pin_expression (p : Pin)
| new_sensor (conf : dict)
| new_text_sensor (conf : dict)
| add (obj : expr) (method : string) (args : list expr)
| add_define (name : string) (body : expr).

(** [dict[key] = v] when the optional [v] is present. *)
Definition set_if_present {A} (key : string) (inj : A → value)
    (v : option A) : dict :=
  match v with
  | Some a => [(key, inj a)]
  | None => []
  end.

(** The body of the loop over [custom_obis_sensors], for entry [i]. *)
Definition custom_sensor_code (hub_id : string) (i : nat)
    (conf_item : CustomObisSensor) : list statement :=
  let var := EVar hub_id in
  let obis_code := code conf_item in
  let sanitized_obis :=
    Py.replace "-" "_" (Py.replace "." "_" (Py.replace ":" "_" obis_code)) in
  let sensor_id_str :=
    hub_id +:+ "_custom_" +:+ sanitized_obis +:+ "_" +:+ Py.str_of_int (Z.of_nat i) in
  if String.eqb (type conf_item) "sensor" then
    let sensor_config_payload : dict :=
      [ ("id", VID sensor_id_str);
        ("name", VStr (name conf_item));
        ("disabled_by_default", VBool (disabled_by_default conf_item));
        ("entity_category", VStr (entity_category conf_item));
        ("internal", VBool (internal conf_item));
        ("force_update", VBool (force_update conf_item)) ]
      ++ set_if_present "unit_of_measurement" VStr (unit_of_measurement conf_item)
      ++ set_if_present "accuracy_decimals" VInt (accuracy_decimals conf_item)
      ++ set_if_present "device_class" VStr (device_class conf_item)
      ++ set_if_present "state_class" VStr (state_class conf_item)
      ++ set_if_present "icon" VStr (icon conf_item) in
    [ new_sensor sensor_config_payload;
      add var "add_custom_numeric_sensor"
        [EStr obis_code; EEntity sensor_config_payload] ]
  else if String.eqb (type conf_item) "text_sensor" then
    let text_sensor_config_payload : dict :=
      [ ("id", VID sensor_id_str);
        ("name", VStr (name conf_item));
        ("disabled_by_default", VBool (disabled_by_default conf_item));
        ("entity_category", VStr (entity_category conf_item));
        ("internal", VBool (internal conf_item)) ]
      ++ set_if_present "icon" VStr (icon conf_item) in
    [ new_text_sensor text_sensor_config_payload;
      add var "add_custom_text_sensor"
        [EStr obis_code; EEntity text_sensor_config_payload] ]
  else [].

(** [for i, conf_item in enumerate(items)], counting from [i]. *)
Fixpoint custom_sensors_code (hub_id : string) (i : nat)
    (items : list CustomObisSensor) : list statement :=
  match items with
  | [] => []
  | conf_item :: rest =>
      custom_sensor_code hub_id i conf_item
      ++ custom_sensors_code hub_id (S i) rest
  end.

Section Hub.

(** The directory of [__init__.py] on the build machine. *)
Variable COMPONENT_DIRECTORY : string.

(** [to_code] of [__init__.py]. *)
Definition to_code (config : DsmrConfig) : list statement :=
  let uart_var := EVar (CONF_UART_ID config) in
  let var := EVar (CONF_ID config) in
  [ new_Pvariable (CONF_ID config) [uart_var; EBool (CONF_CRC_CHECK config)];
    register_component var;
    add_library "rweather/Crypto" (Some "0.4.0") ]
  ++ (let lib_deps_yaml := default [] (CONF_PLATFORMIO_OPTIONS config) in
      (fun dep => add_library dep None) <$> lib_deps_yaml)
  ++ [ add_build_flag ("-I" +:+ COMPONENT_DIRECTORY);
       add var "set_max_telegram_length"
         [EInt (CONF_MAX_TELEGRAM_LENGTH config)];
       add var "set_receive_timeout"
         [EInt (total_milliseconds (CONF_RECEIVE_TIMEOUT config))] ]
  ++ match CONF_DECRYPTION_KEY config with
     | Some key => [add var "set_decryption_key" [EStr key]]
     | None => []
     end
  ++ match CONF_REQUEST_PIN config with
     | Some pin => [gpio_pin_expression pin; add var "set_request_pin" [EPin pin]]
     | None => []
     end
  ++ [ add var "set_request_interval"
         [EInt (total_milliseconds (CONF_REQUEST_INTERVAL config))];
       add_build_flag ("-DDSMR_CUSTOM_GAS_MBUS_ID="
                       +:+ Py.str_of_int (CONF_GAS_MBUS_ID config));
       add_build_flag ("-DDSMR_CUSTOM_WATER_MBUS_ID="
                       +:+ Py.str_of_int (CONF_WATER_MBUS_ID config)) ]
  ++ match CONF_CUSTOM_OBIS_SENSORS config with
     | Some items => custom_sensors_code (CONF_ID config) 0 items
     | None => []
     end.

(** Configuration time.  ESPHome validates the YAML block with
    [CONFIG_SCHEMA] and calls [to_code] only on a configuration that
    passed; an [Invalid] ends the build, so no firmware is produced and
    nothing is ever acquired. *)
Definition configure (y : DsmrYaml) : outcome (list statement) :=
  to_code <$> CONFIG_SCHEMA y.

End Hub.

(** ** [sensor.py] and [text_sensor.py]: the standard sensor platforms *)

(** A value of the platform's validated configuration: the dict of one
    sensor ([isinstance(conf_item, dict)]) or anything else (the hub's ID,
    a setup priority). *)
Inductive conf_item : Type :=
| ConfDict (conf : dict)
| ConfValue (v : value).

(** The platform's validated configuration, as [config.items()] lists it. *)
Definition platform_config : Type := list (string * conf_item).

Definition CONF_DSMR_CUSTOM_HUB_ID : string := "dsmr_custom_hub_id".

(** [config[key]]; [None] is [KeyError]. *)
Fixpoint getitem (config : platform_config) (key : string) : option conf_item :=
  match config with
  | [] => None
  | (k, v) :: rest => if String.eqb k key then Some v else getitem rest key
  end.

(** [await cg.get_variable(config[CONF_DSMR_CUSTOM_HUB_ID])]: the hub's
    variable, when the key holds an ID. *)
Definition get_hub (config : platform_config) : option expr :=
  match getitem config CONF_DSMR_CUSTOM_HUB_ID with
  | Some (ConfValue (VID hub_id)) => Some (EVar hub_id)
  | _ => None
  end.

(** The macro body [" sep ".join(active)], or the empty string. *)
Definition macro_body (active : list string) : expr :=
  match active with
  | [] => EStr ""
  | _ => RawExpression (Py.join " sep " active)
  end.

Module sensor.

(** The loop of [to_code]: the statements it emits and the list
    [active_standard_sensors_for_macro] it builds. *)
Fixpoint to_code_loop (hub : expr) (items : platform_config)
  : list statement * list string :=
  match items with
  | [] => ([], [])
  | (key, item) :: rest =>
      let '(stmts, active) := to_code_loop hub rest in
      match item with
      | ConfDict conf =>
          if String.eqb key CONF_DSMR_CUSTOM_HUB_ID then (stmts, active)
          else
            (new_sensor conf
               :: add hub ("set_" +:+ key) [EEntity conf] :: stmts,
             ("F(" +:+ key +:+ ")") :: active)
      | ConfValue _ => (stmts, active)
      end
  end.

(** [to_code] of [sensor.py]. *)
Definition to_code (config : platform_config) : option (list statement) :=
  hub ← get_hub config;
  let '(stmts, active_standard_sensors_for_macro) := to_code_loop hub config in
  Some (stmts ++
        [add_define "DSMR_CUSTOM_SENSOR_LIST(F, sep)"
           (macro_body active_standard_sensors_for_macro)]).

End sensor.

Module text_sensor.

(** The loop of [to_code]: the statements it emits and the list
    [active_standard_text_sensors_for_macro] it builds. *)
Fixpoint to_code_loop (hub : expr) (items : platform_config)
  : list statement * list string :=
  match items with
  | [] => ([], [])
  | (key, item) :: rest =>
      let '(stmts, active) := to_code_loop hub rest in
      match item with
      | ConfDict conf =>
          if String.eqb key CONF_DSMR_CUSTOM_HUB_ID then (stmts, active)
          else
            (new_text_sensor conf
               :: add hub ("set_" +:+ key) [EEntity conf] :: stmts,
             if negb (String.eqb key "telegram")
             then ("F(" +:+ key +:+ ")") :: active
             else active)
      | ConfValue _ => (stmts, active)
      end
  end.

(** [to_code] of [text_sensor.py]. *)
Definition to_code (config : platform_config) : option (list statement) :=
  hub ← get_hub config;
  let '(stmts, active_standard_text_sensors_for_macro) :=
    to_code_loop hub config in
  Some (stmts ++
        [add_define "DSMR_CUSTOM_TEXT_SENSOR_LIST(F, sep)"
           (macro_body active_standard_text_sensors_for_macro)]).

(** The standard text sensors a configuration holds: the keys bound to a
    dict, the hub's key apart, in configuration order. *)
Definition configured (config : platform_config) : list (string * dict) :=
  omap (fun '(key, item) =>
          match item with
          | ConfDict conf =>
              if String.eqb key CONF_DSMR_CUSTOM_HUB_ID then None
              else Some (key, conf)
          | ConfValue _ => None
          end) config.

End text_sensor.

(** ** The hub's run-time pipeline

    The C++ hub that frames, decodes and publishes telegrams is behind the
    generated calls above.  Its dispatch registry and its field parser are
    described here as the specification words them. *)

(** Modelled from the spec: the C++ hub's [ParsedValue], a tagged union of
    a numeric value with its unit (the decimal exponent of the text kept),
    a text value, a timestamp with its DST marker, and a raw value. *)
Inductive ParsedValue : Type :=
| Numeric (mantissa : Z) (exponent : Z) (unit : string)
| Text (text : string)
| Timestamp (stamp : string) (dst : ascii)
| Raw (bytes : string).

(** Modelled from the spec: the provenance tag of a binding. *)
Inductive Provenance : Type := Standard | Custom.

#[global] Instance Provenance_eq_dec : EqDecision Provenance.
Proof. solve_decision. Defined.

(** Modelled from the spec: the C++ hub's [SensorBinding], an OBIS code
    with a sink identity and a provenance tag. *)
Record SensorBinding : Type := {
  obis : string;
  sink : nat;
  provenance : Provenance;
}.

#[global] Instance SensorBinding_eq_dec : EqDecision SensorBinding.
Proof. solve_decision. Defined.

Module DispatchRegistry.

(** Modelled from the spec: the normal form of an [ObisCode], missing
    from the sources with the rest of the C++ hub; representations that
    differ in embedded white space have one canonical form. *)
Fixpoint normalize (code : string) : string :=
  match code with
  | EmptyString => EmptyString
  | String c rest =>
      if Py.isspace c then normalize rest else String c (normalize rest)
  end.

Definition is_custom (b : SensorBinding) : bool :=
  bool_decide (provenance b = Custom).

(** Modelled from the spec: the C++ hub's [bind(code, sinkIdentity,
    provenance)]; the registry maps a code to an ordered small set of
    bindings. *)
Definition bind (code : string) (sinkIdentity : nat) (p : Provenance)
    (registry : gmap string (list SensorBinding))
  : gmap string (list SensorBinding) :=
  let key := normalize code in
  let b := {| obis := key; sink := sinkIdentity; provenance := p |} in
  let bound := default [] (registry !! key) in
  if bool_decide (b ∈ bound) then registry
  else <[key := bound ++ [b]]> registry.

(** Modelled from the spec: the precedence rule of the C++ hub's
    dispatch; when both provenances are present only the [Custom]
    bindings are served, otherwise all of them are. *)
Definition select (bound : list SensorBinding) : list SensorBinding :=
  if existsb is_custom bound then filter (λ b, is_custom b = true) bound
  else bound.

Section Dispatch.

(** The [ValueSink] capability, [accept(ObisCode, ParsedValue)], of
    each sink identity: [true] is success. *)
Variable accept : nat → string → ParsedValue → bool.

(** Modelled from the spec: the C++ hub's [dispatch(code, value)]; it
    looks up the bindings of the code, serves the selected ones in
    order and reports each sink's answer; a failing sink does not stop
    the others, and a code without binding is dropped. *)
Definition dispatch (registry : gmap string (list SensorBinding))
    (code : string) (v : ParsedValue) : list (SensorBinding * bool) :=
  let key := normalize code in
  (λ b, (b, accept (sink b) key v))
    <$> select (default [] (registry !! key)).

End Dispatch.

(** Modelled from the spec: the C++ hub's startup, which binds the
    bindings of the configuration in order, before any acquisition. *)
Definition startup (bindings : list (string * nat * Provenance))
  : gmap string (list SensorBinding) :=
  foldl (λ registry '(code, s, p), bind code s p registry) ∅ bindings.

(** The bindings a dispatch delivered to. *)
Definition delivered (log : list (SensorBinding * bool)) : list SensorBinding :=
  fst <$> log.

End DispatchRegistry.

Module FieldParser.

(** Modelled from the spec: what the value grammars of the C++ field
    parser make of one line: the pairs of a recognized line (several for
    a multi-value line), a line that matches no known grammar, or a
    malformed line. *)
Inductive line_result : Type :=
| Recognized (pairs : list (string * ParsedValue))
| Unrecognized
| Malformed.

(** Modelled from the spec: what the C++ field parser hands on for a
    frame, the pairs in frame order and the counts of the lines it
    skipped. *)
Record parse_result : Type := {
  pairs : list (string * ParsedValue);
  unrecognized_lines : nat;
  malformed_lines : nat;
}.

Section Parser.

(** The table of known OBIS value grammars. *)
Variable grammar : string → line_result.

(** Modelled from the spec: the C++ field parser's walk over a
    [PlaintextFrame], line by line; a recognized line yields its pairs,
    every other line is skipped and counted, and no line ends the
    walk. *)
Fixpoint parse (frame : list string) : parse_result :=
  match frame with
  | [] => {| pairs := []; unrecognized_lines := 0; malformed_lines := 0 |}
  | line :: rest =>
      let r := parse rest in
      match grammar line with
      | Recognized ps =>
          {| pairs := ps ++ pairs r;
             unrecognized_lines := unrecognized_lines r;
             malformed_lines := malformed_lines r |}
      | Unrecognized =>
          {| pairs := pairs r;
             unrecognized_lines := S (unrecognized_lines r);
             malformed_lines := malformed_lines r |}
      | Malformed =>
          {| pairs := pairs r;
             unrecognized_lines := unrecognized_lines r;
             malformed_lines := S (malformed_lines r) |}
      end
  end.

Definition is_recognized (line : string) : bool :=
  match grammar line with
  | Recognized _ => true
  | _ => false
  end.

Definition is_malformed (line : string) : bool :=
  match grammar line with
  | Malformed => true
  | _ => false
  end.

Definition is_unrecognized (line : string) : bool :=
  match grammar line with
  | Unrecognized => true
  | _ => false
  end.

End Parser.

End FieldParser.

(** ** Vocabulary of the properties *)

(** Every character of [s] satisfies [p]. *)
Fixpoint all_chars (p : ascii → bool) (s : string) : bool :=
  match s with
  | EmptyString => true
  | String c rest => p c && all_chars p rest
  end.

(** [s] consists of exactly 32 hexadecimal characters. *)
Definition is_hex32 (s : string) : bool :=
  Nat.eqb (String.length s) 32 && all_chars Py.is_hex s.



(** [part] has two characters. *)
Definition two_chars (part : string) : bool := Nat.eqb (String.length part) 2.

(** [int(part, 16)] returns. *)
Definition int16_reads (part : string) : bool :=
  match Py.int16 part with Some _ => true | None => false end.

(** A key whose pairs carry a sign, and the key validation returns for
    it. *)
Definition signed_key : string := "+1+1+1+1+1+1+1+1+1+1+1+1+1+1+1+1".
Definition signed_key_result : string := "01010101010101010101010101010101".

(** A well-formed key. *)
Definition sample_key : string := "00112233445566778899aAbBcCdDeEfF".

(** A hub block that leaves every optional key out. *)
Definition minimal_yaml : DsmrYaml :=
  {| y_id := "dsmr_hub"; y_uart_id := "uart_bus";
     y_max_telegram_length := None; y_decryption_key := None;
     y_request_pin := None; y_request_interval := None;
     y_receive_timeout := None; y_crc_check := None;
     y_gas_mbus_id := None; y_water_mbus_id := None;
     y_custom_obis_sensors := None; y_platformio_options := None |}.

(** What the schema makes of [minimal_yaml]. *)
Definition minimal_config : DsmrConfig :=
  {| CONF_ID := "dsmr_hub"; CONF_UART_ID := "uart_bus";
     CONF_MAX_TELEGRAM_LENGTH := 1500;
     CONF_DECRYPTION_KEY := None;
     CONF_REQUEST_PIN := None;
     CONF_REQUEST_INTERVAL :=
       {| microseconds := None; milliseconds := None; seconds := Some 0;
          minutes := None; hours := None; days := None |};
     CONF_RECEIVE_TIMEOUT :=
       {| microseconds := None; milliseconds := Some 200; seconds := None;
          minutes := None; hours := None; days := None |};
     CONF_CRC_CHECK := true;
     CONF_GAS_MBUS_ID := 1; CONF_WATER_MBUS_ID := 2;
     CONF_CUSTOM_OBIS_SENSORS := None;
     CONF_PLATFORMIO_OPTIONS := None |}.

(** The hub block [y] with [gas_mbus_id: n]. *)
Definition with_gas_mbus_id (n : Z) (y : DsmrYaml) : DsmrYaml :=
  {| y_id := y_id y; y_uart_id := y_uart_id y;
     y_max_telegram_length := y_max_telegram_length y;
     y_decryption_key := y_decryption_key y;
     y_request_pin := y_request_pin y;
     y_request_interval := y_request_interval y;
     y_receive_timeout := y_receive_timeout y;
     y_crc_check := y_crc_check y;
     y_gas_mbus_id := Some n;
     y_water_mbus_id := y_water_mbus_id y;
     y_custom_obis_sensors := y_custom_obis_sensors y;
     y_platformio_options := y_platformio_options y |}.

(** The hub block [y] with [water_mbus_id: n]. *)
Definition with_water_mbus_id (n : Z) (y : DsmrYaml) : DsmrYaml :=
  {| y_id := y_id y; y_uart_id := y_uart_id y;
     y_max_telegram_length := y_max_telegram_length y;
     y_decryption_key := y_decryption_key y;
     y_request_pin := y_request_pin y;
     y_request_interval := y_request_interval y;
     y_receive_timeout := y_receive_timeout y;
     y_crc_check := y_crc_check y;
     y_gas_mbus_id := y_gas_mbus_id y;
     y_water_mbus_id := Some n;
     y_custom_obis_sensors := y_custom_obis_sensors y;
     y_platformio_options := y_platformio_options y |}.

(** A text sensor platform block with two sensors, one of them the
    telegram. *)
Definition sample_platform_config : platform_config :=
  [ ("dsmr_custom_hub_id", ConfValue (VID "dsmr_hub"));
    ("identification", ConfDict [("id", VID "dsmr_identification")]);
    ("telegram", ConfDict [("id", VID "dsmr_telegram"); ("internal", VBool true)]) ].

(** The example of the specification: the code [1-0:1.8.1] bound to a
    standard sink (here 1) and to a custom sink (here 2), and the value of
    the line [1-0:1.8.1(000123.456*kWh)]. *)
Definition sample_bindings : list (string * nat * Provenance) :=
  [ ("1-0:1.8.1", 1%nat, Standard); ("1-0:1.8.1", 2%nat, Custom) ].

(** 123.456 kWh, the exponent of the text kept. *)
Definition sample_value : ParsedValue := Numeric 123456 (-3) "kWh".

(** A sink that accepts everything. *)
Definition accept_all (s : nat) (code : string) (v : ParsedValue) : bool := true.

(** A grammar that knows one line, finds one malformed, and does not
    recognize the others. *)
Definition sample_grammar (line : string) : FieldParser.line_result :=
  if String.eqb line "1-0:1.8.1(000123.456*kWh)" then
    FieldParser.Recognized [("1-0:1.8.1", sample_value)]
  else if String.eqb line "1-0:1.8.1(000123" then FieldParser.Malformed
  else FieldParser.Unrecognized.

(** A frame body with an unknown line, a truncated line and a good line. *)
Definition sample_frame : list string :=
  [ "0-0:96.99.9(vendor)"; "1-0:1.8.1(000123"; "1-0:1.8.1(000123.456*kWh)" ].

(** The pairs of the recognized lines of a frame, in frame order. *)
Definition recognized_pairs (grammar : string → FieldParser.line_result)
    (frame : list string) : list (string * ParsedValue) :=
  frame ≫= (λ line,
    match grammar line with
    | FieldParser.Recognized ps => ps
    | _ => []
    end).

(** The 256 characters. *)
Definition all_ascii : list ascii := ascii_of_nat <$> seq 0 256.

(** ** Vocabulary of the further properties *)

(** The body of the loop of [_validate_key] that reads the parts. *)
Definition read_part (part : string) : outcome Z :=
  match Py.int16 part with
  | Some n => Valid n
  | None =>
      Invalid ("Decryption key part '" +:+ part
               +:+ "' is not a valid hexadecimal number.")
  end.

(** [s.upper()] on the ASCII letters. *)
Definition upper_char (c : ascii) : ascii :=
  let n := N_of_ascii c in
  if ((97 <=? n) && (n <=? 122))%N then ascii_of_N (n - 32) else c.

Fixpoint upper (s : string) : string :=
  match s with
  | EmptyString => EmptyString
  | String c rest => String (upper_char c) (upper rest)
  end.



(** The hub block [y] with [max_telegram_length: n]. *)
Definition with_max_telegram_length (n : Z) (y : DsmrYaml) : DsmrYaml :=
  {| y_id := y_id y; y_uart_id := y_uart_id y;
     y_max_telegram_length := Some n;
     y_decryption_key := y_decryption_key y;
     y_request_pin := y_request_pin y;
     y_request_interval := y_request_interval y;
     y_receive_timeout := y_receive_timeout y;
     y_crc_check := y_crc_check y;
     y_gas_mbus_id := y_gas_mbus_id y;
     y_water_mbus_id := y_water_mbus_id y;
     y_custom_obis_sensors := y_custom_obis_sensors y;
     y_platformio_options := y_platformio_options y |}.



(** The build flags the generated code adds, in order. *)
Definition build_flags (stmts : list statement) : list string :=
  omap (λ st, match st with add_build_flag flag => Some flag | _ => None end)
    stmts.

(** The libraries the generated code asks for, in order. *)
Definition libraries (stmts : list statement) : list (string * option string) :=
  omap (λ st, match st with
              | add_library name version => Some (name, version)
              | _ => None
              end) stmts.



(** A custom sensor entry with the three required keys only. *)
Definition plain_entry (code name type : string) : CustomObisSensorYaml :=
  {| y_code := code; y_name := name; y_type := type;
     y_unit_of_measurement := None; y_accuracy_decimals := None;
     y_device_class := None; y_state_class := None; y_icon := None;
     y_force_update := None; y_disabled_by_default := None;
     y_entity_category := None; y_internal := None |}.

(** A hub block with a key, a pin, two libraries and two custom
    sensors. *)
Definition full_yaml : DsmrYaml :=
  {| y_id := "dsmr_hub"; y_uart_id := "uart_bus";
     y_max_telegram_length := Some 2000;
     y_decryption_key := Some sample_key;
     y_request_pin := Some {| pin_number := 5; pin_inverted := false |};
     y_request_interval := Some "10s"; y_receive_timeout := None;
     y_crc_check := Some false;
     y_gas_mbus_id := Some 3; y_water_mbus_id := None;
     y_custom_obis_sensors :=
       Some [ plain_entry "1-0:1.8.0" "Energy" "Sensor";
              plain_entry "1-0:1.8.0" "Energy text" "text_sensor" ];
     y_platformio_options := Some (Some ["lib_a"; "lib_b"]) |}.

(** What the schema makes of [full_yaml]. *)
Definition full_config : DsmrConfig :=
  Eval vm_compute in
    match CONFIG_SCHEMA full_yaml with
    | Valid config => config
    | Invalid _ => minimal_config
    end.

(** The OBIS code as [to_code] writes it into a sensor's ID. *)
Definition sanitize (obis_code : string) : string :=
  Py.replace "-" "_" (Py.replace "." "_" (Py.replace ":" "_" obis_code)).


(** One of the three separators of an OBIS code. *)
Definition is_separator (c : ascii) : bool :=
  Ascii.eqb c ":" || Ascii.eqb c "." || Ascii.eqb c "-".


(** A text sensor entry that also gives the options of a numeric
    sensor. *)
Definition verbose_text_entry : CustomObisSensorYaml :=
  {| y_code := "0-0:96.1.0"; y_name := "Equipment"; y_type := "Text_Sensor";
     y_unit_of_measurement := Some "kWh"; y_accuracy_decimals := Some 3;
     y_device_class := Some "energy"; y_state_class := Some "measurement";
     y_icon := None; y_force_update := Some true;
     y_disabled_by_default := Some false; y_entity_category := None;
     y_internal := None |}.


(** A character of a key as validation returns it: a decimal digit, a
    capital [A] to [F], or the minus sign of a negative pair. *)
Definition is_key_char (c : ascii) : bool :=
  let n := N_of_ascii c in
  (((48 <=? n) && (n <=? 57)) || ((65 <=? n) && (n <=? 70)) || (n =? 45))%N.

(** * Properties *)

(** ** Generic facts *)

Lemma in_all_ascii (c : ascii) : c ∈ all_ascii.
Proof.
  unfold all_ascii. rewrite <- (ascii_nat_embedding c).
  apply list_elem_of_fmap_2, elem_of_seq.
  pose proof (nat_ascii_bounded c). lia.
Qed.

Lemma forall_ascii (p : ascii → bool) :
  forallb p all_ascii = true → ∀ c, p c = true.
Proof.
  intros H c. rewrite forallb_forall in H.
  apply H, list_elem_of_In, in_all_ascii.
Qed.

Lemma forall_ascii2 (p : ascii → ascii → bool) :
  forallb (λ a, forallb (p a) all_ascii) all_ascii = true →
  ∀ a b, p a b = true.
Proof.
  intros H a b. apply (forall_ascii (p a)), (forall_ascii _ H).
Qed.

Lemma string_pair_ind (P : string → Prop) :
  P EmptyString →
  (∀ a, P (String a EmptyString)) →
  (∀ a b rest, P rest → P (String a (String b rest))) →
  ∀ s, P s.
Proof.
  intros H0 H1 H2.
  assert (H : ∀ s, P s ∧ ∀ a, P (String a s)).
  { induction s as [|b s [IH1 IH2]]; split; auto. }
  intros s. apply H.
Qed.

Lemma for_each_is_valid {A B} (f : A → outcome B) (xs : list A) :
  is_valid (for_each f xs) = forallb (λ x, is_valid (f x)) xs.
Proof.
  induction xs as [|x xs IH]; [done|]. cbn.
  destruct (f x) as [y|msg]; cbn; [|done].
  rewrite <- IH. by destruct (for_each f xs).
Qed.

Lemma is_valid_bind_total {A B} (m : outcome A) (f : A → outcome B) :
  (∀ a, is_valid (f a) = true) → is_valid (m ≫= f) = is_valid m.
Proof. intros H. destruct m; cbn; auto. Qed.

(** ** The decryption key *)

(** What [_validate_key] accepts, read off its branches. *)
Lemma validate_key_is_valid (value : string) :
  is_valid (_validate_key value)
  = String.eqb value ""
    || (Nat.eqb (length (parts_of value)) 16
        && forallb two_chars (parts_of value)
        && forallb int16_reads (parts_of value)).
Proof.
  unfold _validate_key, cv.string_strict. cbn.
  destruct (String.eqb value ""); [done|]. cbn.
  destruct (Nat.eqb (length (parts_of value)) 16); [|done]. cbn.
  assert (E : existsb (λ part, negb (Nat.eqb (String.length part) 2))
                (parts_of value)
              = negb (forallb two_chars (parts_of value))).
  { induction (parts_of value) as [|p ps IH]; [done|]. cbn.
    rewrite IH. unfold two_chars. by destruct (Nat.eqb (String.length p) 2). }
  rewrite E. destruct (forallb two_chars (parts_of value)); [|done]. cbn.
  rewrite is_valid_bind_total by done. rewrite for_each_is_valid. clear E.
  induction (parts_of value) as [|part ps IH]; [done|]. cbn.
  rewrite IH. unfold int16_reads. by destruct (Py.int16 part).
Qed.

(** The parts are 16 two-character strings exactly when the key has 32
    characters. *)
Lemma parts_of_count (value : string) (n : nat) :
  Nat.eqb (length (parts_of value)) n && forallb two_chars (parts_of value)
  = Nat.eqb (String.length value) (2 * n).
Proof.
  revert n. induction value as [|a|a b rest IH] using string_pair_ind; intros n.
  - destruct n; reflexivity.
  - destruct n as [|[|n]]; reflexivity.
  - cbn [parts_of length forallb String.length].
    destruct n as [|n]; [reflexivity|].
    replace (2 * S n)%nat with (S (S (2 * n))) by lia.
    change (two_chars (String a (String b EmptyString))) with true.
    cbn [Nat.eqb andb]. apply IH.
Qed.



(** The exact set [_validate_key] accepts: the empty string, and the
    32-character strings every pair of which [int(_, 16)] reads. *)
Lemma validate_key_accepts (value : string) :
  is_valid (_validate_key value)
  = String.eqb value ""
    || (Nat.eqb (String.length value) 32
        && forallb int16_reads (parts_of value)).
Proof.
  rewrite validate_key_is_valid, (parts_of_count value 16). done.
Qed.

(** No string of another length than 0 or 32 is accepted. *)
Lemma validate_key_length (value : string) :
  is_valid (_validate_key value) = true →
  value = "" ∨ String.length value = 32%nat.
Proof.
  rewrite validate_key_accepts. intros H.
  apply orb_prop in H as [H|H].
  - left. by apply String.eqb_eq.
  - right. apply andb_prop in H as [H _]. by apply Nat.eqb_eq.
Qed.

(** The empty key is returned as it is. *)
Lemma validate_key_empty : _validate_key "" = Valid "".
Proof. reflexivity. Qed.


Lemma configure_is_valid (dir : string) (y : DsmrYaml) :
  is_valid (configure dir y) = is_valid (CONFIG_SCHEMA y).
Proof. unfold configure. by destruct (CONFIG_SCHEMA y). Qed.




(** C3: the empty key is returned as it is; but it is not the only string
    other than 32 hexadecimal characters to pass: validation also accepts
    the 32 characters of [signed_key], which hold no hexadecimal pair
    without a sign, and returns another key for them. *)
Theorem validate_key_signed_pairs :
  _validate_key "" = Valid ""
  ∧ is_hex32 signed_key = false
  ∧ _validate_key signed_key = Valid signed_key_result.
Proof. repeat split; vm_compute; reflexivity. Qed.

(** ** The hub's schema *)

Ltac bind_valid H :=
  repeat match type of H with
         | (?m ≫= _) = Valid _ =>
             let E := fresh "E" in
             destruct m eqn:E; cbn [mbind outcome_bind] in H;
             [|discriminate H]
         end.

(** A configuration that passed the schema holds, key by key, what the
    key's validator returned. *)
Lemma CONFIG_SCHEMA_valid (y : DsmrYaml) (config : DsmrConfig) :
  CONFIG_SCHEMA y = Valid config →
  cv.Optional_default 1500 cv.positive_int (y_max_telegram_length y)
    = Valid (CONF_MAX_TELEGRAM_LENGTH config)
  ∧ cv.Optional _validate_key (y_decryption_key y)
    = Valid (CONF_DECRYPTION_KEY config)
  ∧ cv.Optional_default "0s" cv.positive_time_period_milliseconds
      (y_request_interval y) = Valid (CONF_REQUEST_INTERVAL config)
  ∧ cv.Optional_default "200ms" cv.positive_time_period_milliseconds
      (y_receive_timeout y) = Valid (CONF_RECEIVE_TIMEOUT config)
  ∧ cv.Optional_default true cv.boolean (y_crc_check y)
    = Valid (CONF_CRC_CHECK config)
  ∧ cv.Optional_default 1 (cv.int_range 0 255) (y_gas_mbus_id y)
    = Valid (CONF_GAS_MBUS_ID config)
  ∧ cv.Optional_default 2 (cv.int_range 0 255) (y_water_mbus_id y)
    = Valid (CONF_WATER_MBUS_ID config)
  ∧ CONF_ID config = y_id y.
Proof.
  unfold CONFIG_SCHEMA. intros H. bind_valid H.
  injection H as <-. cbn. by repeat split.
Qed.

(** The schema accepts a block exactly when every key's validator does. *)
Lemma CONFIG_SCHEMA_is_valid (y : DsmrYaml) :
  is_valid (CONFIG_SCHEMA y)
  = is_valid (cv.Optional_default 1500 cv.positive_int (y_max_telegram_length y))
    && is_valid (cv.Optional _validate_key (y_decryption_key y))
    && is_valid (cv.Optional_default "0s" cv.positive_time_period_milliseconds
                   (y_request_interval y))
    && is_valid (cv.Optional_default "200ms" cv.positive_time_period_milliseconds
                   (y_receive_timeout y))
    && is_valid (cv.Optional_default 1 (cv.int_range 0 255) (y_gas_mbus_id y))
    && is_valid (cv.Optional_default 2 (cv.int_range 0 255) (y_water_mbus_id y))
    && is_valid (cv.Optional (for_each CUSTOM_OBIS_SENSOR_SCHEMA)
                   (y_custom_obis_sensors y)).
Proof.
  unfold CONFIG_SCHEMA.
  destruct (cv.Optional_default 1500 _ _); [|done].
  destruct (cv.Optional _validate_key _); [|done].
  destruct (cv.Optional_default "0s" _ _); [|done].
  destruct (cv.Optional_default "200ms" _ _); [|done].
  cbn [mbind outcome_bind is_valid andb].
  change (cv.Optional_default true cv.boolean (y_crc_check y))
    with (Valid (A := bool) (default true (y_crc_check y))).
  cbn [mbind outcome_bind].
  destruct (cv.Optional_default 1 _ _); [|done].
  destruct (cv.Optional_default 2 _ _); [|done].
  by destruct (cv.Optional (for_each CUSTOM_OBIS_SENSOR_SCHEMA) _).
Qed.

Lemma minimal_yaml_valid : is_valid (CONFIG_SCHEMA minimal_yaml) = true.
Proof. reflexivity. Qed.

(** [cv.int_range(min=0, max=255)] accepts the integers from 0 to 255 and
    no other. *)
Lemma int_range_0_255 (n : Z) :
  is_valid (cv.int_range 0 255 n) = true ↔ 0 ≤ n ≤ 255.
Proof.
  unfold cv.int_range, cv.int_, cv.Range. cbn [mbind outcome_bind].
  destruct (Z.leb_spec 0 n), (Z.leb_spec n 255); cbn; split; (lia || done).
Qed.

(** C5: for every integer supplied as the gas or the water channel id, in
    a hub block that is otherwise valid, configuration validation accepts
    the block if and only if the integer lies between 0 and 255
    inclusive; an integer out of range makes the configuration fail, so
    that no code is generated for it. *)
Theorem mbus_id_range (y : DsmrYaml) (n : Z) :
  is_valid (CONFIG_SCHEMA y) = true →
  (is_valid (CONFIG_SCHEMA (with_gas_mbus_id n y)) = true ↔ 0 ≤ n ≤ 255)
  ∧ (is_valid (CONFIG_SCHEMA (with_water_mbus_id n y)) = true ↔ 0 ≤ n ≤ 255)
  ∧ (¬ 0 ≤ n ≤ 255 →
     ∀ dir : string,
       is_valid (configure dir (with_gas_mbus_id n y)) = false
       ∧ is_valid (configure dir (with_water_mbus_id n y)) = false).
Proof.
  intros Hy. rewrite CONFIG_SCHEMA_is_valid in Hy.
  repeat (apply andb_prop in Hy as [Hy ?]).
  assert (G : is_valid (CONFIG_SCHEMA (with_gas_mbus_id n y)) = true
              ↔ 0 ≤ n ≤ 255).
  { rewrite CONFIG_SCHEMA_is_valid. cbn [with_gas_mbus_id y_max_telegram_length
      y_decryption_key y_request_interval y_receive_timeout y_gas_mbus_id
      y_water_mbus_id y_custom_obis_sensors].
    rewrite <- int_range_0_255. unfold cv.Optional_default at 4.
    cbn [default]. rewrite !andb_true_iff. tauto. }
  assert (W : is_valid (CONFIG_SCHEMA (with_water_mbus_id n y)) = true
              ↔ 0 ≤ n ≤ 255).
  { rewrite CONFIG_SCHEMA_is_valid. cbn [with_water_mbus_id y_max_telegram_length
      y_decryption_key y_request_interval y_receive_timeout y_gas_mbus_id
      y_water_mbus_id y_custom_obis_sensors].
    rewrite <- int_range_0_255. unfold cv.Optional_default at 5.
    cbn [default]. rewrite !andb_true_iff. tauto. }
  split; [exact G|]. split; [exact W|].
  intros Hn dir. rewrite !configure_is_valid.
  split; apply not_true_is_false; tauto.
Qed.

Lemma mbus_id_range_witness :
  is_valid (CONFIG_SCHEMA (with_gas_mbus_id 255 minimal_yaml)) = true
  ∧ is_valid (CONFIG_SCHEMA (with_water_mbus_id 256 minimal_yaml)) = false.
Proof.
  destruct (mbus_id_range minimal_yaml 255 eq_refl) as [G _].
  destruct (mbus_id_range minimal_yaml 256 eq_refl) as (_ & W & _).
  split.
  - apply G. lia.
  - apply not_true_is_false. intros H. apply W in H. lia.
Defined.

(** ** The hub's defaults and the generated setters *)

Lemma minimal_yaml_config : CONFIG_SCHEMA minimal_yaml = Valid minimal_config.
Proof. reflexivity. Qed.

(** [to_code] always emits the constructor call and the three setters of
    the limits, with the values of the validated configuration. *)
Lemma to_code_emits (dir : string) (config : DsmrConfig) :
  let var := EVar (CONF_ID config) in
  new_Pvariable (CONF_ID config)
    [EVar (CONF_UART_ID config); EBool (CONF_CRC_CHECK config)]
    ∈ to_code dir config
  ∧ add var "set_max_telegram_length" [EInt (CONF_MAX_TELEGRAM_LENGTH config)]
    ∈ to_code dir config
  ∧ add var "set_receive_timeout"
      [EInt (total_milliseconds (CONF_RECEIVE_TIMEOUT config))]
    ∈ to_code dir config
  ∧ add var "set_request_interval"
      [EInt (total_milliseconds (CONF_REQUEST_INTERVAL config))]
    ∈ to_code dir config.
Proof.
  cbn zeta. unfold to_code.
  repeat split; rewrite ?elem_of_app, ?elem_of_cons; tauto.
Qed.

(** C6: when the configuration omits [max_telegram_length], the maximum
    telegram length is 1500 (bytes), and when it omits [receive_timeout],
    the receive timeout is 200 milliseconds; these are the values the
    generated code sets on the hub. *)
Theorem default_length_and_timeout
    (dir : string) (y : DsmrYaml) (config : DsmrConfig) :
  CONFIG_SCHEMA y = Valid config →
  (y_max_telegram_length y = None →
   CONF_MAX_TELEGRAM_LENGTH config = 1500
   ∧ add (EVar (CONF_ID config)) "set_max_telegram_length" [EInt 1500]
     ∈ to_code dir config)
  ∧ (y_receive_timeout y = None →
     total_milliseconds (CONF_RECEIVE_TIMEOUT config) = 200
     ∧ add (EVar (CONF_ID config)) "set_receive_timeout" [EInt 200]
       ∈ to_code dir config).
Proof.
  intros H. apply CONFIG_SCHEMA_valid in H as (L & _ & _ & T & _).
  pose proof (to_code_emits dir config) as (_ & EL & ET & _).
  split; intros N.
  - rewrite N in L. injection L as L. rewrite <- L in EL |- *. done.
  - rewrite N in T. injection T as T. rewrite <- T in ET |- *. done.
Qed.

Lemma default_length_and_timeout_witness :
  CONF_MAX_TELEGRAM_LENGTH minimal_config = 1500
  ∧ total_milliseconds (CONF_RECEIVE_TIMEOUT minimal_config) = 200.
Proof.
  destruct (default_length_and_timeout "" minimal_yaml minimal_config
              minimal_yaml_config) as [L T].
  split; [apply (L eq_refl) | apply (T eq_refl)].
Defined.

(** C8: when the configuration omits [request_interval], the minimum
    request interval is none, 0 milliseconds, and this value is what the
    generated code passes to the hub's [set_request_interval]. *)
Theorem default_request_interval
    (dir : string) (y : DsmrYaml) (config : DsmrConfig) :
  CONFIG_SCHEMA y = Valid config →
  y_request_interval y = None →
  total_milliseconds (CONF_REQUEST_INTERVAL config) = 0
  ∧ add (EVar (CONF_ID config)) "set_request_interval" [EInt 0]
    ∈ to_code dir config.
Proof.
  intros H N. apply CONFIG_SCHEMA_valid in H as (_ & _ & I & _).
  pose proof (to_code_emits dir config) as (_ & _ & _ & EI).
  rewrite N in I. injection I as I. rewrite <- I in EI |- *. done.
Qed.

Lemma default_request_interval_witness :
  total_milliseconds (CONF_REQUEST_INTERVAL minimal_config) = 0
  ∧ add (EVar "dsmr_hub") "set_request_interval" [EInt 0]
    ∈ to_code "" minimal_config.
Proof.
  exact (default_request_interval "" minimal_yaml minimal_config
           minimal_yaml_config eq_refl).
Defined.

(** C9: when the configuration omits [crc_check], it is true, and a value
    the user gives is kept, so that CRC validation is enabled unless the
    user disables it; the hub is constructed with this value. *)
Theorem default_crc_check
    (dir : string) (y : DsmrYaml) (config : DsmrConfig) :
  CONFIG_SCHEMA y = Valid config →
  (y_crc_check y = None → CONF_CRC_CHECK config = true)
  ∧ (∀ b : bool, y_crc_check y = Some b → CONF_CRC_CHECK config = b)
  ∧ new_Pvariable (CONF_ID config)
      [EVar (CONF_UART_ID config); EBool (default true (y_crc_check y))]
    ∈ to_code dir config.
Proof.
  intros H. apply CONFIG_SCHEMA_valid in H as (_ & _ & _ & _ & C & _).
  pose proof (to_code_emits dir config) as (EC & _).
  injection C as C. rewrite <- C in EC |- *.
  split; [|split].
  - by intros ->.
  - by intros b ->.
  - done.
Qed.

Lemma default_crc_check_witness : CONF_CRC_CHECK minimal_config = true.
Proof.
  destruct (default_crc_check "" minimal_yaml minimal_config
              minimal_yaml_config) as [C _].
  apply (C eq_refl).
Defined.

(** ** The text sensor platform *)

Lemma string_app_inj_r (s1 s2 suffix : string) :
  String.length s1 = String.length s2 →
  s1 +:+ suffix = s2 +:+ suffix → s1 = s2.
Proof.
  revert s2. induction s1 as [|c s1 IH]; intros [|c' s2] L E; try done.
  cbn in L, E. injection E as -> E. f_equal. apply IH; [lia | done].
Qed.

Lemma string_length_app (s1 s2 : string) :
  String.length (s1 +:+ s2) = (String.length s1 + String.length s2)%nat.
Proof.
  induction s1 as [|c s1 IH]; [done|].
  change (S (String.length (s1 +:+ s2))
          = S (String.length s1 + String.length s2)).
  by rewrite IH.
Qed.

(** [F(key)] names its key. *)
Lemma macro_entry_inj (k1 k2 : string) :
  "F(" +:+ k1 +:+ ")" = "F(" +:+ k2 +:+ ")" → k1 = k2.
Proof.
  intros E. cbn in E. injection E as E.
  apply (string_app_inj_r k1 k2 ")"); [|done].
  apply (f_equal String.length) in E. rewrite !string_length_app in E.
  cbn in E. lia.
Qed.

(** The loop emits, for each configured sensor in order, its creation and
    its registration, and lists every configured key but [telegram]. *)
Lemma text_sensor_loop (hub : expr) (config : platform_config) :
  text_sensor.to_code_loop hub config
  = (text_sensor.configured config
       ≫= (λ '(key, conf),
             [new_text_sensor conf; add hub ("set_" +:+ key) [EEntity conf]]),
     (λ key, "F(" +:+ key +:+ ")")
       <$> filter (λ key, key ≠ "telegram")
             (fst <$> text_sensor.configured config)).
Proof.
  induction config as [|[key item] rest IH]; [done|].
  cbn [text_sensor.to_code_loop]. rewrite IH.
  unfold text_sensor.configured. cbn [omap list_omap].
  destruct item as [conf|v]; [|done].
  destruct (String.eqb key CONF_DSMR_CUSTOM_HUB_ID); [done|].
  cbn [mbind list_bind fmap list_fmap fst app]. f_equal.
  destruct (String.eqb_spec key "telegram") as [->|N]; cbn [negb].
  - by rewrite filter_cons_False by (intros ?; done).
  - by rewrite filter_cons_True by done.
Qed.



Example text_sensor_sample :
  text_sensor.to_code sample_platform_config
  = Some [ new_text_sensor [("id", VID "dsmr_identification")];
           add (EVar "dsmr_hub") "set_identification"
             [EEntity [("id", VID "dsmr_identification")]];
           new_text_sensor [("id", VID "dsmr_telegram"); ("internal", VBool true)];
           add (EVar "dsmr_hub") "set_telegram"
             [EEntity [("id", VID "dsmr_telegram"); ("internal", VBool true)]];
           add_define "DSMR_CUSTOM_TEXT_SENSOR_LIST(F, sep)"
             (RawExpression "F(identification)") ].
Proof. reflexivity. Qed.

(** ** The dispatch registry *)

Module RegistryFacts.
Import DispatchRegistry.

(** The bindings of a code after one more [bind]. *)
Lemma bind_bound (registry : gmap string (list SensorBinding))
    (code : string) (s : nat) (p : Provenance) (key : string)
    (b : SensorBinding) :
  b ∈ default [] (bind code s p registry !! key)
  ↔ b ∈ default [] (registry !! key)
    ∨ (key = normalize code
       ∧ b = {| obis := normalize code; sink := s; provenance := p |}).
Proof.
  unfold bind. case_bool_decide as Hin.
  - split; [by left|]. intros [H|[-> ->]]; done.
  - destruct (decide (key = normalize code)) as [->|N].
    + rewrite lookup_insert_eq. cbn. rewrite elem_of_app, list_elem_of_singleton.
      tauto.
    + rewrite lookup_insert_ne by done. split; [by left|].
      intros [H|[E _]]; [done | by destruct N].
Qed.

(** A code's bindings stay without repetition. *)
Lemma bind_NoDup (registry : gmap string (list SensorBinding))
    (code : string) (s : nat) (p : Provenance) :
  (∀ key, NoDup (default [] (registry !! key))) →
  ∀ key, NoDup (default [] (bind code s p registry !! key)).
Proof.
  intros H key. unfold bind. case_bool_decide as Hin; [apply H|].
  destruct (decide (key = normalize code)) as [->|N].
  - rewrite lookup_insert_eq. cbn. apply NoDup_app. split; [apply H|].
    split; [|apply NoDup_singleton].
    intros x Hx ->%list_elem_of_singleton. done.
  - rewrite lookup_insert_ne by done. apply H.
Qed.

Lemma foldl_bind_bound (bindings : list (string * nat * Provenance))
    (registry : gmap string (list SensorBinding)) (key : string)
    (b : SensorBinding) :
  b ∈ default [] (foldl (λ registry '(code, s, p), bind code s p registry)
                    registry bindings !! key)
  ↔ b ∈ default [] (registry !! key)
    ∨ ∃ code s p, (code, s, p) ∈ bindings ∧ key = normalize code
        ∧ b = {| obis := normalize code; sink := s; provenance := p |}.
Proof.
  revert registry. induction bindings as [|[[code s] p] rest IH]; intros registry.
  - cbn. split; [by left|]. intros [H|(? & ? & ? & []%elem_of_nil & _)]. done.
  - cbn [foldl]. rewrite IH, bind_bound. split.
    + intros [[H|[-> ->]]|(c & s' & p' & H & E)].
      * by left.
      * right. exists code, s, p. split; [left|done].
      * right. exists c, s', p'. split; [by right|done].
    + intros [H|(c & s' & p' & H & E)]; [by left; left|].
      apply elem_of_cons in H as [[= -> -> ->]|H].
      * left. by right.
      * right. by exists c, s', p'.
Qed.

Lemma foldl_bind_NoDup (bindings : list (string * nat * Provenance))
    (registry : gmap string (list SensorBinding)) :
  (∀ key, NoDup (default [] (registry !! key))) →
  ∀ key, NoDup (default [] (foldl (λ registry '(code, s, p),
                                     bind code s p registry)
                              registry bindings !! key)).
Proof.
  revert registry. induction bindings as [|[[code s] p] rest IH];
    intros registry H; [done|].
  cbn [foldl]. apply IH. by apply bind_NoDup.
Qed.

(** After startup, the bindings of a code are those of the
    configuration, each once. *)
Lemma startup_bound (bindings : list (string * nat * Provenance))
    (key : string) (b : SensorBinding) :
  b ∈ default [] (startup bindings !! key)
  ↔ ∃ code s p, (code, s, p) ∈ bindings ∧ key = normalize code
      ∧ b = {| obis := normalize code; sink := s; provenance := p |}.
Proof.
  unfold startup. rewrite foldl_bind_bound, lookup_empty. cbn.
  rewrite elem_of_nil. tauto.
Qed.

Lemma startup_NoDup (bindings : list (string * nat * Provenance))
    (key : string) :
  NoDup (default [] (startup bindings !! key)).
Proof.
  apply foldl_bind_NoDup. intros k. rewrite lookup_empty. apply NoDup_nil_2.
Qed.

Lemma delivered_dispatch accept registry code v :
  delivered (dispatch accept registry code v)
  = select (default [] (registry !! normalize code)).
Proof.
  unfold delivered, dispatch. rewrite <- list_fmap_compose.
  apply list_fmap_id.
Qed.

(** With a [Custom] binding present, exactly the [Custom] bindings are
    selected. *)
Lemma select_custom (bound : list SensorBinding) (c : SensorBinding) :
  c ∈ bound → provenance c = Custom →
  ∀ b, b ∈ select bound ↔ b ∈ bound ∧ provenance b = Custom.
Proof.
  intros Hc Pc b. unfold select.
  assert (E : existsb is_custom bound = true).
  { apply existsb_exists. exists c. split; [by apply list_elem_of_In|].
    unfold is_custom. by apply bool_decide_eq_true. }
  rewrite E, list_elem_of_filter. unfold is_custom.
  rewrite bool_decide_eq_true. tauto.
Qed.

Lemma select_NoDup (bound : list SensorBinding) :
  NoDup bound → NoDup (select bound).
Proof.
  intros H. unfold select. destruct (existsb is_custom bound); [|done].
  by apply NoDup_filter.
Qed.

Lemma filter_absent {A} `{EqDecision A} (x : A) (l : list A) :
  x ∉ l → filter (λ y, y = x) l = [].
Proof.
  induction l as [|y l IH]; [done|]. intros [N Hx]%not_elem_of_cons.
  rewrite filter_cons_False by (intros ->; done). by apply IH.
Qed.

(** An element of a list without repetition occurs once in it. *)
Lemma NoDup_once {A} `{EqDecision A} (x : A) (l : list A) :
  NoDup l → x ∈ l → length (filter (λ y, y = x) l) = 1%nat.
Proof.
  induction 1 as [|y l Hy Hl IH]; intros Hx; [by apply elem_of_nil in Hx|].
  apply elem_of_cons in Hx as [->|Hx].
  - rewrite filter_cons_True by done. cbn. by rewrite filter_absent.
  - rewrite filter_cons_False; [by apply IH|].
    intros ->. done.
Qed.

End RegistryFacts.

(** C1: for every OBIS code that has both a [Custom] and a [Standard]
    binding registered, dispatching a parsed value for that code delivers
    the value to the [Custom] binding exactly once and never to the
    [Standard] binding; every binding served is a [Custom] one. *)
Theorem dispatch_custom_overrides
    (accept : nat → string → ParsedValue → bool)
    (bindings : list (string * nat * Provenance))
    (code code_c code_s : string) (sc ss : nat) (v : ParsedValue) :
  (code_c, sc, Custom) ∈ bindings →
  (code_s, ss, Standard) ∈ bindings →
  DispatchRegistry.normalize code_c = DispatchRegistry.normalize code →
  DispatchRegistry.normalize code_s = DispatchRegistry.normalize code →
  let key := DispatchRegistry.normalize code in
  let custom := {| obis := key; sink := sc; provenance := Custom |} in
  let standard := {| obis := key; sink := ss; provenance := Standard |} in
  let log :=
    DispatchRegistry.dispatch accept (DispatchRegistry.startup bindings) code v in
  length (filter (λ b, b = custom) (DispatchRegistry.delivered log)) = 1%nat
  ∧ (custom, accept sc key v) ∈ log
  ∧ (standard ∉ DispatchRegistry.delivered log)
  ∧ (∀ b, b ∈ DispatchRegistry.delivered log → provenance b = Custom).
Proof.
  intros Hc Hs Ec Es key custom standard log.
  assert (Bc : custom ∈ default [] (DispatchRegistry.startup bindings !! key)).
  { apply RegistryFacts.startup_bound. exists code_c, sc, Custom.
    subst custom key. by rewrite Ec. }
  pose proof (RegistryFacts.select_custom _ custom Bc eq_refl) as Sel.
  assert (D : DispatchRegistry.delivered log
              = DispatchRegistry.select
                  (default [] (DispatchRegistry.startup bindings !! key))).
  { apply RegistryFacts.delivered_dispatch. }
  assert (Dc : custom ∈ DispatchRegistry.delivered log).
  { rewrite D. by apply Sel. }
  split; [|split; [|split]].
  - apply RegistryFacts.NoDup_once; [|done]. rewrite D.
    apply RegistryFacts.select_NoDup, RegistryFacts.startup_NoDup.
  - rewrite D in Dc. subst log. unfold DispatchRegistry.dispatch.
    apply list_elem_of_fmap. by exists custom.
  - rewrite D. intros [_ P]%Sel. discriminate P.
  - intros b. rewrite D. by intros [_ P]%Sel.
Qed.

Lemma dispatch_custom_overrides_witness :
  DispatchRegistry.dispatch accept_all
    (DispatchRegistry.startup sample_bindings) "1-0:1.8.1" sample_value
  = [({| obis := "1-0:1.8.1"; sink := 2; provenance := Custom |}, true)]
  ∧ length (filter (λ b, b = {| obis := "1-0:1.8.1"; sink := 2;
                                provenance := Custom |})
              (DispatchRegistry.delivered
                 (DispatchRegistry.dispatch accept_all
                    (DispatchRegistry.startup sample_bindings)
                    "1-0:1.8.1" sample_value))) = 1%nat.
Proof.
  split; [reflexivity|].
  refine (proj1 (dispatch_custom_overrides accept_all sample_bindings
                   "1-0:1.8.1" "1-0:1.8.1" "1-0:1.8.1" 2 1 sample_value
                   _ _ eq_refl eq_refl)).
  - apply list_elem_of_further, list_elem_of_here.
  - apply list_elem_of_here.
Defined.

(** ** The field parser *)

Lemma parse_pairs (grammar : string → FieldParser.line_result)
    (frame : list string) :
  FieldParser.pairs (FieldParser.parse grammar frame)
  = recognized_pairs grammar frame.
Proof.
  induction frame as [|line rest IH]; [done|].
  cbn [FieldParser.parse]. unfold recognized_pairs in *.
  cbn [mbind list_bind]. rewrite <- IH.
  by destruct (grammar line).
Qed.

Lemma parse_counts (grammar : string → FieldParser.line_result)
    (frame : list string) :
  FieldParser.malformed_lines (FieldParser.parse grammar frame)
  = length (filter (λ line, FieldParser.is_malformed grammar line = true) frame)
  ∧ FieldParser.unrecognized_lines (FieldParser.parse grammar frame)
    = length (filter (λ line, FieldParser.is_unrecognized grammar line = true)
                frame).
Proof.
  induction frame as [|line rest [IHm IHu]]; [done|].
  cbn [FieldParser.parse].
  unfold FieldParser.is_malformed, FieldParser.is_unrecognized in *.
  destruct (grammar line) eqn:E;
    cbn [FieldParser.malformed_lines FieldParser.unrecognized_lines].
  - by rewrite !filter_cons_False by (by rewrite E).
  - rewrite filter_cons_False, filter_cons_True by (by rewrite E).
    cbn [length]. by rewrite IHm, IHu.
  - rewrite filter_cons_True, filter_cons_False by (by rewrite E).
    cbn [length]. by rewrite IHm, IHu.
Qed.

(** C7: parsing a frame that holds malformed or unrecognized lines does
    not fail the frame: the parser returns a result for every frame, in
    which each line that matches no known grammar is skipped, the
    malformed and the unrecognized lines are counted, and the pairs of
    every recognized line are present, in frame order. *)
Theorem parse_skips_unknown_lines
    (grammar : string → FieldParser.line_result) (frame : list string) :
  FieldParser.pairs (FieldParser.parse grammar frame)
  = recognized_pairs grammar frame
  ∧ FieldParser.malformed_lines (FieldParser.parse grammar frame)
    = length (filter (λ line, FieldParser.is_malformed grammar line = true)
                frame)
  ∧ FieldParser.unrecognized_lines (FieldParser.parse grammar frame)
    = length (filter (λ line, FieldParser.is_unrecognized grammar line = true)
                frame)
  ∧ (∀ line ps pair,
       line ∈ frame → grammar line = FieldParser.Recognized ps → pair ∈ ps →
       pair ∈ FieldParser.pairs (FieldParser.parse grammar frame))
  ∧ (∀ pair,
       pair ∈ FieldParser.pairs (FieldParser.parse grammar frame) →
       ∃ line ps,
         line ∈ frame ∧ grammar line = FieldParser.Recognized ps ∧ pair ∈ ps).
Proof.
  pose proof (parse_counts grammar frame) as [M U].
  split; [apply parse_pairs|]. split; [exact M|]. split; [exact U|].
  rewrite parse_pairs. unfold recognized_pairs. split.
  - intros line ps pair Hl Hg Hp. apply list_elem_of_bind.
    exists line. by rewrite Hg.
  - intros pair (line & Hp & Hl)%list_elem_of_bind.
    destruct (grammar line) as [ps| |] eqn:Hg;
      [|by apply elem_of_nil in Hp..].
    by exists line, ps.
Qed.

Lemma parse_skips_unknown_lines_witness :
  ("1-0:1.8.1", sample_value)
    ∈ FieldParser.pairs (FieldParser.parse sample_grammar sample_frame).
Proof.
  destruct (parse_skips_unknown_lines sample_grammar sample_frame)
    as (_ & _ & _ & R & _).
  apply (R "1-0:1.8.1(000123.456*kWh)" [("1-0:1.8.1", sample_value)]).
  - do 2 apply list_elem_of_further. apply list_elem_of_here.
  - reflexivity.
  - apply list_elem_of_here.
Defined.

Example parse_sample :
  FieldParser.parse sample_grammar sample_frame
  = {| FieldParser.pairs := [("1-0:1.8.1", sample_value)];
       FieldParser.unrecognized_lines := 1;
       FieldParser.malformed_lines := 1 |}.
Proof. reflexivity. Qed.

(** ** Examples *)

(** What [int(part, 16)] makes of a few pairs. *)
Example int16_pairs :
  Py.int16 "fF" = Some 255 ∧ Py.int16 "+1" = Some 1 ∧ Py.int16 "-a" = Some (-10)
  ∧ Py.int16 " 1" = Some 1 ∧ Py.int16 "1 " = Some 1
  ∧ Py.int16 "0x" = None ∧ Py.int16 "1_" = None ∧ Py.int16 "_1" = None
  ∧ Py.int16 "++" = None ∧ Py.int16 "fg" = None.
Proof. repeat split; reflexivity. Qed.

(** A well-formed key is returned in upper case. *)
Example validate_key_sample :
  _validate_key sample_key = Valid "00112233445566778899AABBCCDDEEFF".
Proof. vm_compute. reflexivity. Qed.

(** A key of sixteen pairs [-1] is accepted and returned as it is. *)
Example validate_key_negative_pairs :
  _validate_key "-1-1-1-1-1-1-1-1-1-1-1-1-1-1-1-1"
  = Valid "-1-1-1-1-1-1-1-1-1-1-1-1-1-1-1-1".
Proof. vm_compute. reflexivity. Qed.

(** The messages of the three failures of [_validate_key]. *)
Example validate_key_messages :
  _validate_key "0011"
  = Invalid "Decryption key must consist of 16 hexadecimal numbers (32 characters), got 4 characters."
  ∧ _validate_key "00112233445566778899aAbBcCdDeEf"
    = Invalid "Decryption key must be in format XXXXXX... (32 hex chars)."
  ∧ _validate_key "00112233445566778899aAbBcCdDeEfg"
    = Invalid "Decryption key part 'fg' is not a valid hexadecimal number.".
Proof. repeat split; vm_compute; reflexivity. Qed.

(** The code generated for the hub block that leaves every option out. *)
Example to_code_minimal :
  configure "/config/components/dsmr_custom" minimal_yaml
  = Valid [ new_Pvariable "dsmr_hub" [EVar "uart_bus"; EBool true];
            register_component (EVar "dsmr_hub");
            add_library "rweather/Crypto" (Some "0.4.0");
            add_build_flag "-I/config/components/dsmr_custom";
            add (EVar "dsmr_hub") "set_max_telegram_length" [EInt 1500];
            add (EVar "dsmr_hub") "set_receive_timeout" [EInt 200];
            add (EVar "dsmr_hub") "set_request_interval" [EInt 0];
            add_build_flag "-DDSMR_CUSTOM_GAS_MBUS_ID=1";
            add_build_flag "-DDSMR_CUSTOM_WATER_MBUS_ID=2" ].
Proof. vm_compute. reflexivity. Qed.

(** The numeric platform lists every configured key in its macro. *)
Example sensor_sample :
  sensor.to_code
    [ ("dsmr_custom_hub_id", ConfValue (VID "dsmr_hub"));
      ("energy_delivered_tariff1", ConfDict [("id", VID "e1")]);
      ("power_delivered", ConfDict [("id", VID "p")]) ]
  = Some [ new_sensor [("id", VID "e1")];
           add (EVar "dsmr_hub") "set_energy_delivered_tariff1"
             [EEntity [("id", VID "e1")]];
           new_sensor [("id", VID "p")];
           add (EVar "dsmr_hub") "set_power_delivered"
             [EEntity [("id", VID "p")]];
           add_define "DSMR_CUSTOM_SENSOR_LIST(F, sep)"
             (RawExpression "F(energy_delivered_tariff1) sep F(power_delivered)") ].
Proof. reflexivity. Qed.

(** * Further properties of the sources *)

(** ** [_validate_key] *)

Lemma string_app_nil_r (s : string) : s +:+ "" = s.
Proof.
  induction s as [|c s IH]; [done|].
  change (String c (s +:+ "") = String c s). by rewrite IH.
Qed.

Lemma join_empty_cons (x : string) (xs : list string) :
  Py.join "" (x :: xs) = x +:+ Py.join "" xs.
Proof.
  unfold Py.join. destruct xs as [|y ys]; cbn [String.concat].
  - by rewrite string_app_nil_r.
  - done.
Qed.

Lemma for_each_cons {A B} (f : A → outcome B) (x : A) (xs : list A) :
  for_each f (x :: xs)
  = f x ≫= λ y, for_each f xs ≫= λ ys, Valid (y :: ys).
Proof. reflexivity. Qed.

Lemma parts_of_length (value : string) :
  length (parts_of value) = ((String.length value + 1) / 2)%nat.
Proof.
  induction value as [|a|a b rest IH] using string_pair_ind; [done..|].
  cbn [parts_of length String.length]. rewrite IH.
  replace (S (S (String.length rest)) + 1)%nat
    with (String.length rest + 1 + 1 * 2)%nat by lia.
  rewrite Nat.div_add by done. lia.
Qed.

Lemma existsb_not_two_chars (parts : list string) :
  existsb (λ part, negb (Nat.eqb (String.length part) 2)) parts
  = negb (forallb two_chars parts).
Proof.
  induction parts as [|p ps IH]; [done|]. cbn.
  rewrite IH. unfold two_chars. by destruct (Nat.eqb (String.length p) 2).
Qed.

(** On a key of 32 characters, [_validate_key] is its loop over the parts
    followed by the formatting. *)
Lemma validate_key_32 (value : string) :
  String.length value = 32%nat →
  _validate_key value
  = for_each read_part (parts_of value)
      ≫= λ parts_int, Valid (Py.join "" (Py.format_02X <$> parts_int)).
Proof.
  intros L. unfold _validate_key, cv.string_strict. cbn [mbind outcome_bind].
  destruct (String.eqb_spec value "") as [->|_]; [discriminate L|].
  pose proof (parts_of_count value 16) as C. rewrite L in C.
  apply andb_prop in C as [C1 C2]. rewrite C1, existsb_not_two_chars, C2.
  reflexivity.
Qed.

(** X1: the chunking of the key loses nothing: joining the parts gives the
    key back, and there are as many parts as half its length, rounded
    up. *)
Theorem parts_of_join (value : string) :
  Py.join "" (parts_of value) = value
  ∧ length (parts_of value) = ((String.length value + 1) / 2)%nat.
Proof.
  split; [|apply parts_of_length].
  induction value as [|a|a b rest IH] using string_pair_ind; [done..|].
  cbn [parts_of]. rewrite join_empty_cons, IH. done.
Qed.

Lemma hex_pair_upper (a b : ascii) :
  Py.is_hex a = true → Py.is_hex b = true →
  ∃ n, Py.int16 (String a (String b EmptyString)) = Some n
       ∧ Py.format_02X n = String (upper_char a) (String (upper_char b) EmptyString).
Proof.
  intros Ha Hb.
  pose proof (forall_ascii2
    (λ a b, implb (Py.is_hex a && Py.is_hex b)
              match Py.int16 (String a (String b EmptyString)) with
              | Some n =>
                  String.eqb (Py.format_02X n)
                    (String (upper_char a) (String (upper_char b) EmptyString))
              | None => false
              end)) as H.
  specialize (H ltac:(vm_compute; reflexivity) a b). cbv beta in H.
  rewrite Ha, Hb in H. cbn [andb implb] in H.
  destruct (Py.int16 _) as [n|]; [|discriminate H].
  exists n. split; [done|]. by apply String.eqb_eq.
Qed.

Lemma hex_parts_upper (value : string) :
  all_chars Py.is_hex value = true →
  forallb two_chars (parts_of value) = true →
  ∃ ns, for_each read_part (parts_of value) = Valid ns
        ∧ Py.join "" (Py.format_02X <$> ns) = upper value.
Proof.
  induction value as [|a|a b rest IH] using string_pair_ind; intros Hh Hp.
  - by exists [].
  - discriminate.
  - cbn in Hh, Hp. apply andb_prop in Hh as [Ha Hh].
    apply andb_prop in Hh as [Hb Hh].
    destruct (IH Hh Hp) as (ns & E & J).
    destruct (hex_pair_upper a b Ha Hb) as (n & En & Fn).
    assert (R : read_part (String a (String b EmptyString)) = Valid n).
    { unfold read_part. by rewrite En. }
    exists (n :: ns). cbn [parts_of]. rewrite for_each_cons, R, E.
    split; [done|].
    rewrite fmap_cons, join_empty_cons, Fn, J. done.
Qed.

Lemma upper_hex (value : string) :
  all_chars Py.is_hex value = true →
  all_chars Py.is_hex (upper value) = true
  ∧ String.length (upper value) = String.length value
  ∧ upper (upper value) = upper value.
Proof.
  induction value as [|c rest IH]; [done|]. cbn [all_chars upper String.length].
  intros [Hc Hr]%andb_prop. destruct (IH Hr) as (H1 & H2 & H3).
  rewrite H1, H2, H3.
  pose proof (forall_ascii
    (λ c, implb (Py.is_hex c)
            (Py.is_hex (upper_char c)
             && Ascii.eqb (upper_char (upper_char c)) (upper_char c)))) as H.
  specialize (H ltac:(vm_compute; reflexivity) c). cbv beta in H.
  rewrite Hc in H. cbn [implb] in H. apply andb_prop in H as [Hu Hi].
  apply Ascii.eqb_eq in Hi. rewrite Hu, Hi. done.
Qed.

Lemma validate_key_hex32_value (k : string) :
  is_hex32 k = true → _validate_key k = Valid (upper k).
Proof.
  intros [L H]%andb_prop. apply Nat.eqb_eq in L.
  rewrite (validate_key_32 k L).
  pose proof (parts_of_count k 16) as C. rewrite L in C.
  apply andb_prop in C as [_ C].
  destruct (hex_parts_upper k H C) as (ns & E & J).
  rewrite E. cbn [mbind outcome_bind]. by rewrite J.
Qed.

(** X2: a key of 32 hexadecimal characters is returned in upper case; the
    key returned is again 32 hexadecimal characters, and validating it
    once more returns it unchanged. *)
Theorem validate_key_upper (s : string) :
  is_hex32 s = true →
  _validate_key s = Valid (upper s)
  ∧ is_hex32 (upper s) = true
  ∧ _validate_key (upper s) = Valid (upper s).
Proof.
  pose proof validate_key_hex32_value as K.
  intros H. pose proof H as [L Hh]%andb_prop.
  destruct (upper_hex s Hh) as (U1 & U2 & U3).
  assert (HU : is_hex32 (upper s) = true).
  { unfold is_hex32. by rewrite U2, L, U1. }
  split; [by apply K|]. split; [done|].
  rewrite (K _ HU). by rewrite U3.
Qed.

Lemma validate_key_upper_witness :
  _validate_key sample_key = Valid "00112233445566778899AABBCCDDEEFF".
Proof.
  exact (proj1 (validate_key_upper sample_key eq_refl)).
Defined.

Lemma pair_format_length (a b : ascii) (n : Z) :
  Py.int16 (String a (String b EmptyString)) = Some n →
  String.length (Py.format_02X n) = 2%nat.
Proof.
  intros E.
  pose proof (forall_ascii2
    (λ a b, match Py.int16 (String a (String b EmptyString)) with
            | Some n => Nat.eqb (String.length (Py.format_02X n)) 2
            | None => true
            end)) as H.
  specialize (H ltac:(vm_compute; reflexivity) a b). cbv beta in H.
  rewrite E in H. by apply Nat.eqb_eq.
Qed.

Lemma parts_format_length (value : string) (ns : list Z) :
  forallb two_chars (parts_of value) = true →
  for_each read_part (parts_of value) = Valid ns →
  String.length (Py.join "" (Py.format_02X <$> ns)) = String.length value.
Proof.
  revert ns.
  induction value as [|a|a b rest IH] using string_pair_ind; intros ns Hp E.
  - by injection E as <-.
  - discriminate.
  - cbn in Hp. cbn [parts_of] in E. rewrite for_each_cons in E.
    destruct (read_part (String a (String b EmptyString))) as [n|] eqn:R;
      [|discriminate E].
    unfold read_part in R.
    destruct (Py.int16 (String a (String b EmptyString))) as [n'|] eqn:En;
      [injection R as ->|discriminate R].
    cbn [mbind outcome_bind] in E.
    destruct (for_each read_part (parts_of rest)) as [ms|] eqn:Em;
      [|discriminate E].
    injection E as <-.
    rewrite fmap_cons, join_empty_cons, string_length_app.
    rewrite (pair_format_length a b n En), (IH ms Hp eq_refl). done.
Qed.

(** X3: the key that validation returns has as many characters as the key
    it was given, whatever pairs it reads: none (the empty key) or 32. *)
Theorem validate_key_keeps_length (s k : string) :
  _validate_key s = Valid k →
  String.length k = String.length s
  ∧ (String.length k = 0%nat ∨ String.length k = 32%nat).
Proof.
  intros E.
  assert (V : is_valid (_validate_key s) = true) by by rewrite E.
  apply validate_key_length in V as [->|L].
  - injection E as <-. split; [done | by left].
  - rewrite (validate_key_32 s L) in E.
    destruct (for_each read_part (parts_of s)) as [ns|] eqn:En;
      [|discriminate E].
    injection E as <-.
    pose proof (parts_of_count s 16) as C. rewrite L in C.
    apply andb_prop in C as [_ C].
    rewrite (parts_format_length s ns C En). split; [done | by right].
Qed.

Lemma validate_key_keeps_length_witness :
  String.length signed_key_result = String.length signed_key.
Proof.
  apply (validate_key_keeps_length signed_key signed_key_result).
  vm_compute. reflexivity.
Defined.

(** X4: a key that is not empty and has neither 31 nor 32 characters is
    rejected with the message that gives its length. *)
Theorem validate_key_wrong_length (s : string) :
  s ≠ "" → String.length s ≠ 31%nat → String.length s ≠ 32%nat →
  _validate_key s
  = Invalid ("Decryption key must consist of 16 hexadecimal numbers (32 characters), got "
             +:+ Py.str_of_int (Py.len s) +:+ " characters.").
Proof.
  intros N L1 L2. unfold _validate_key, cv.string_strict.
  cbn [mbind outcome_bind].
  destruct (String.eqb_spec s "") as [->|_]; [done|].
  assert (P : Nat.eqb (length (parts_of s)) 16 = false).
  { apply Nat.eqb_neq. rewrite parts_of_length. intros H.
    assert (String.length s + 1 = 2 * 16 + (String.length s + 1) mod 2)%nat
      by (rewrite <- H; apply Nat.div_mod_eq).
    pose proof (Nat.mod_upper_bound (String.length s + 1) 2). lia. }
  by rewrite P.
Qed.

Lemma validate_key_wrong_length_witness :
  _validate_key "0011"
  = Invalid "Decryption key must consist of 16 hexadecimal numbers (32 characters), got 4 characters.".
Proof.
  apply (validate_key_wrong_length "0011"); [discriminate | cbn; lia..].
Defined.

(** X5: a key of 31 characters passes the count of the parts and is
    rejected by the test on their lengths, with the message on the
    format, whatever its characters. *)
Theorem validate_key_31 (s : string) :
  String.length s = 31%nat →
  _validate_key s
  = Invalid "Decryption key must be in format XXXXXX... (32 hex chars).".
Proof.
  intros L. unfold _validate_key, cv.string_strict. cbn [mbind outcome_bind].
  destruct (String.eqb_spec s "") as [->|_]; [discriminate L|].
  assert (P : Nat.eqb (length (parts_of s)) 16 = true).
  { apply Nat.eqb_eq. by rewrite parts_of_length, L. }
  pose proof (parts_of_count s 16) as C. rewrite L, P in C. cbn in C.
  by rewrite P, existsb_not_two_chars, C.
Qed.

Lemma validate_key_31_witness :
  _validate_key "00112233445566778899aAbBcCdDeEf"
  = Invalid "Decryption key must be in format XXXXXX... (32 hex chars).".
Proof. apply validate_key_31. reflexivity. Defined.

Lemma for_each_first_invalid {A B} (f : A → outcome B)
    (good : list A) (bad : A) (rest : list A) (msg : string) :
  forallb (λ x, is_valid (f x)) good = true →
  f bad = Invalid msg →
  for_each f (good ++ bad :: rest) = Invalid msg.
Proof.
  intros G E. induction good as [|x good IH].
  - cbn. by rewrite E.
  - cbn in G. apply andb_prop in G as [Gx G].
    cbn [app]. rewrite for_each_cons, (IH G).
    by destruct (f x).
Qed.

(** X6: in a key of 32 characters, the first part that [int(part, 16)]
    does not read is the one the message names; the parts after it are
    not looked at. *)
Theorem validate_key_first_bad_part
    (s : string) (good : list string) (bad : string) (rest : list string) :
  String.length s = 32%nat →
  parts_of s = good ++ bad :: rest →
  forallb int16_reads good = true →
  int16_reads bad = false →
  _validate_key s
  = Invalid ("Decryption key part '" +:+ bad
             +:+ "' is not a valid hexadecimal number.").
Proof.
  intros L P G B. rewrite (validate_key_32 s L), P.
  rewrite (for_each_first_invalid read_part good bad rest
             ("Decryption key part '" +:+ bad
              +:+ "' is not a valid hexadecimal number.")); [done| |].
  - rewrite <- G. clear. induction good as [|x good IH]; [done|].
    cbn. rewrite IH. unfold read_part, int16_reads. by destruct (Py.int16 x).
  - unfold read_part, int16_reads in *. by destruct (Py.int16 bad).
Qed.

Lemma validate_key_first_bad_part_witness :
  _validate_key "0011zz33445566778899aAbBcCdDeEgg"
  = Invalid "Decryption key part 'zz' is not a valid hexadecimal number.".
Proof.
  apply (validate_key_first_bad_part "0011zz33445566778899aAbBcCdDeEgg"
           ["00"; "11"] "zz"
           ["33"; "44"; "55"; "66"; "77"; "88"; "99"; "aA"; "bB"; "cC";
            "dD"; "eE"; "gg"]); reflexivity.
Defined.



(** ** The hub's schema and [to_code] *)

Lemma full_yaml_config : CONFIG_SCHEMA full_yaml = Valid full_config.
Proof. vm_compute. reflexivity. Qed.

(** The keys of a validated configuration that no validator changes, and
    the validated list of custom sensors. *)
Lemma CONFIG_SCHEMA_valid_rest (y : DsmrYaml) (config : DsmrConfig) :
  CONFIG_SCHEMA y = Valid config →
  CONF_UART_ID config = y_uart_id y
  ∧ CONF_REQUEST_PIN config = y_request_pin y
  ∧ CONF_PLATFORMIO_OPTIONS config = default None (y_platformio_options y)
  ∧ cv.Optional (for_each CUSTOM_OBIS_SENSOR_SCHEMA) (y_custom_obis_sensors y)
    = Valid (CONF_CUSTOM_OBIS_SENSORS config).
Proof.
  unfold CONFIG_SCHEMA. intros H. bind_valid H.
  injection H as <-. cbn. by repeat split.
Qed.

Lemma Optional_valid {A B} (validator : A → outcome B)
    (supplied : option A) (validated : option B) :
  cv.Optional validator supplied = Valid validated →
  match supplied with
  | Some v => ∃ w, validator v = Valid w ∧ validated = Some w
  | None => validated = None
  end.
Proof.
  destruct supplied as [v|]; cbn.
  - destruct (validator v) as [w|]; [|discriminate]. intros [= <-]. by exists w.
  - by intros [= <-].
Qed.


(** What [CUSTOM_OBIS_SENSOR_SCHEMA] makes of an entry it accepts. *)
Lemma CUSTOM_OBIS_SENSOR_SCHEMA_valid
    (y : CustomObisSensorYaml) (item : CustomObisSensor) :
  CUSTOM_OBIS_SENSOR_SCHEMA y = Valid item →
  code item = y_code y
  ∧ name item = y_name y
  ∧ type item = Py.lower (y_type y)
  ∧ (type item = "sensor" ∨ type item = "text_sensor")
  ∧ icon item = y_icon y
  ∧ force_update item = default false (y_force_update y)
  ∧ disabled_by_default item = default false (y_disabled_by_default y)
  ∧ entity_category item = default "" (y_entity_category y)
  ∧ internal item = default false (y_internal y)
  ∧ unit_of_measurement item = y_unit_of_measurement y
  ∧ device_class item = y_device_class y
  ∧ state_class item = y_state_class y
  ∧ (accuracy_decimals item = y_accuracy_decimals y
     ∧ ∀ a, y_accuracy_decimals y = Some a → 0 ≤ a).
Proof.
  unfold CUSTOM_OBIS_SENSOR_SCHEMA, cv.string_strict, cv.boolean,
    cv.Optional_default.
  cbn [mbind outcome_bind]. unfold sensor_type_enum.
  intros H.
  assert (T : ∃ t, (if String.eqb (Py.lower (y_type y)) "sensor"
                    then Valid "sensor"
                    else if String.eqb (Py.lower (y_type y)) "text_sensor"
                         then Valid "text_sensor"
                         else Invalid ("Unknown value '" +:+ Py.lower (y_type y) +:+ "'"))
                   = Valid t
                   ∧ t = Py.lower (y_type y)
                   ∧ (t = "sensor" ∨ t = "text_sensor")).
  { destruct (String.eqb_spec (Py.lower (y_type y)) "sensor") as [E|_].
    - exists "sensor". rewrite E. auto.
    - destruct (String.eqb_spec (Py.lower (y_type y)) "text_sensor") as [E|_].
      + exists "text_sensor". rewrite E. auto.
      + discriminate H. }
  destruct T as (t & Et & Tl & Tc). rewrite Et in H.
  cbn [mbind outcome_bind] in H.
  destruct (y_unit_of_measurement y), (y_device_class y);
    cbn [cv.Optional fmap outcome_fmap mbind outcome_bind] in H;
    (destruct (y_accuracy_decimals y) as [a|];
     cbn [cv.Optional fmap outcome_fmap mbind outcome_bind] in H;
     [destruct (cv.positive_int a) as [a'|] eqn:Ea; [|discriminate H];
      cbn [fmap outcome_fmap mbind outcome_bind] in H;
      unfold cv.positive_int, cv.int_, cv.Range in Ea;
      cbn [mbind outcome_bind] in Ea;
      destruct (Z.leb_spec 0 a); [|discriminate Ea];
      injection Ea as <- |]);
    injection H as <-; cbn; repeat split; try done;
    intros ? [= <-]; done.
Qed.

Lemma custom_sensor_no_flag_no_library (hub_id : string) (i : nat)
    (item : CustomObisSensor) :
  build_flags (custom_sensor_code hub_id i item) = []
  ∧ libraries (custom_sensor_code hub_id i item) = [].
Proof.
  unfold custom_sensor_code.
  destruct (String.eqb (type item) "sensor"); [done|].
  by destruct (String.eqb (type item) "text_sensor").
Qed.

Lemma custom_sensors_no_flag_no_library (hub_id : string) (i : nat)
    (items : list CustomObisSensor) :
  build_flags (custom_sensors_code hub_id i items) = []
  ∧ libraries (custom_sensors_code hub_id i items) = [].
Proof.
  revert i. induction items as [|item rest IH]; intros i; [done|].
  cbn [custom_sensors_code]. unfold build_flags, libraries in *.
  rewrite !omap_app.
  destruct (custom_sensor_no_flag_no_library hub_id i item) as [F L].
  destruct (IH (S i)) as [F' L'].
  unfold build_flags, libraries in F, L. by rewrite F, L, F', L'.
Qed.




(** X9: when the block has a decryption key, the hub receives the key as
    validation returned it, not as the user wrote it: in upper case for a
    key of 32 hexadecimal characters, and the empty string for an empty
    key, for which the setter is called all the same. *)
Theorem to_code_decryption_key
    (dir : string) (y : DsmrYaml) (config : DsmrConfig) (key : string) :
  CONFIG_SCHEMA y = Valid config →
  y_decryption_key y = Some key →
  ∃ k, _validate_key key = Valid k
       ∧ add (EVar (y_id y)) "set_decryption_key" [EStr k] ∈ to_code dir config
       ∧ (is_hex32 key = true → k = upper key)
       ∧ (key = "" → k = "").
Proof.
  intros H Hk. pose proof (CONFIG_SCHEMA_valid y config H)
    as (_ & K & _ & _ & _ & _ & _ & I).
  apply Optional_valid in K. rewrite Hk in K. destruct K as (k & E & Ck).
  exists k. split; [done|]. split; [|split].
  - unfold to_code. rewrite Ck, I, !elem_of_app, !elem_of_cons. tauto.
  - intros X. apply validate_key_hex32_value in X. congruence.
  - intros ->. rewrite validate_key_empty in E. congruence.
Qed.

Lemma to_code_decryption_key_witness :
  ∃ k, _validate_key sample_key = Valid k
       ∧ add (EVar "dsmr_hub") "set_decryption_key" [EStr k]
         ∈ to_code "" full_config
       ∧ (is_hex32 sample_key = true → k = upper sample_key)
       ∧ (sample_key = "" → k = "").
Proof.
  exact (to_code_decryption_key "" full_yaml full_config sample_key
           full_yaml_config eq_refl).
Defined.

Lemma positive_int_valid (n : Z) :
  is_valid (cv.positive_int n) = true ↔ 0 ≤ n.
Proof.
  unfold cv.positive_int, cv.int_, cv.Range. cbn [mbind outcome_bind].
  destruct (Z.leb_spec 0 n); cbn; split; (lia || done).
Qed.

(** X10: [max_telegram_length] is accepted exactly when it is not
    negative, zero included; the value accepted is the one the generated
    code sets on the hub. *)
Theorem max_telegram_length_range (dir : string) (y : DsmrYaml) (n : Z) :
  is_valid (CONFIG_SCHEMA y) = true →
  (is_valid (CONFIG_SCHEMA (with_max_telegram_length n y)) = true ↔ 0 ≤ n)
  ∧ ∀ config,
      CONFIG_SCHEMA (with_max_telegram_length n y) = Valid config →
      add (EVar (y_id y)) "set_max_telegram_length" [EInt n]
        ∈ to_code dir config.
Proof.
  intros Hy. rewrite CONFIG_SCHEMA_is_valid in Hy.
  repeat (apply andb_prop in Hy as [Hy ?]). split.
  - rewrite CONFIG_SCHEMA_is_valid.
    cbn [with_max_telegram_length y_max_telegram_length
      y_decryption_key y_request_interval y_receive_timeout y_gas_mbus_id
      y_water_mbus_id y_custom_obis_sensors].
    rewrite <- positive_int_valid. unfold cv.Optional_default at 1.
    cbn [default]. rewrite !andb_true_iff. tauto.
  - intros config Hc.
    pose proof (CONFIG_SCHEMA_valid _ _ Hc) as (M & _ & _ & _ & _ & _ & _ & I).
    pose proof (to_code_emits dir config) as (_ & EM & _).
    cbn [with_max_telegram_length y_max_telegram_length y_id] in M, I.
    unfold cv.Optional_default, cv.positive_int, cv.int_, cv.Range in M.
    cbn [default mbind outcome_bind] in M. unfold id in M.
    destruct (negb (0 <=? n)); cbn [mbind outcome_bind] in M;
      [discriminate M|]. injection M as M.
    by rewrite <- M, I in EM.
Qed.

Lemma max_telegram_length_range_witness :
  is_valid (CONFIG_SCHEMA (with_max_telegram_length 0 minimal_yaml)) = true
  ∧ is_valid (CONFIG_SCHEMA (with_max_telegram_length (-1) minimal_yaml)) = false.
Proof.
  destruct (max_telegram_length_range "" minimal_yaml 0 eq_refl) as [Z0 _].
  destruct (max_telegram_length_range "" minimal_yaml (-1) eq_refl) as [Z1 _].
  split.
  - apply Z0. lia.
  - apply not_true_is_false. intros H. apply Z1 in H. lia.
Defined.

(** X11: the generated code adds three build flags and no other: the
    include path of the component, and the gas and water M-Bus ids, which
    are the ids of the block, or 1 and 2 when it leaves them out, and lie
    between 0 and 255. *)
Theorem to_code_build_flags
    (dir : string) (y : DsmrYaml) (config : DsmrConfig) :
  CONFIG_SCHEMA y = Valid config →
  let gas := default 1 (y_gas_mbus_id y) in
  let water := default 2 (y_water_mbus_id y) in
  build_flags (to_code dir config)
  = [ "-I" +:+ dir;
      "-DDSMR_CUSTOM_GAS_MBUS_ID=" +:+ Py.str_of_int gas;
      "-DDSMR_CUSTOM_WATER_MBUS_ID=" +:+ Py.str_of_int water ]
  ∧ 0 ≤ gas ≤ 255 ∧ 0 ≤ water ≤ 255.
Proof.
  intros H gas water.
  pose proof (CONFIG_SCHEMA_valid y config H) as (_ & _ & _ & _ & _ & G & W & _).
  unfold cv.Optional_default in G, W. fold gas in G. fold water in W.
  assert (Gv : is_valid (cv.int_range 0 255 gas) = true) by by rewrite G.
  assert (Wv : is_valid (cv.int_range 0 255 water) = true) by by rewrite W.
  apply int_range_0_255 in Gv, Wv. split; [|done].
  unfold cv.int_range, cv.int_, cv.Range in G, W.
  cbn [mbind outcome_bind] in G, W.
  destruct (negb (0 <=? gas)), (negb (gas <=? 255));
    cbn [mbind outcome_bind] in G; try discriminate G.
  destruct (negb (0 <=? water)), (negb (water <=? 255));
    cbn [mbind outcome_bind] in W; try discriminate W.
  injection G as G. injection W as W.
  unfold to_code, build_flags. rewrite !omap_app, <- G, <- W.
  assert (L : ∀ deps : list string,
            omap (λ st, match st with add_build_flag f => Some f | _ => None end)
              ((λ dep, add_library dep None) <$> deps) = []).
  { induction deps as [|d deps IH]; [done|]. by cbn. }
  rewrite L.
  assert (C : omap (λ st, match st with add_build_flag f => Some f | _ => None end)
                match CONF_CUSTOM_OBIS_SENSORS config with
                | Some items => custom_sensors_code (CONF_ID config) 0 items
                | None => []
                end = []).
  { destruct (CONF_CUSTOM_OBIS_SENSORS config) as [items|]; [|done].
    apply custom_sensors_no_flag_no_library. }
  rewrite C.
  by destruct (CONF_DECRYPTION_KEY config), (CONF_REQUEST_PIN config).
Qed.

Lemma to_code_build_flags_witness :
  build_flags (to_code "/d" full_config)
  = ["-I/d"; "-DDSMR_CUSTOM_GAS_MBUS_ID=3"; "-DDSMR_CUSTOM_WATER_MBUS_ID=2"].
Proof.
  exact (proj1 (to_code_build_flags "/d" full_yaml full_config full_yaml_config)).
Defined.

(** X12: the libraries the generated code asks for are the Crypto library,
    pinned to 0.4.0, and then the [lib_deps] of the block, unpinned and in
    the order written; nothing the user configures drops or replaces the
    Crypto library. *)
Theorem to_code_libraries
    (dir : string) (y : DsmrYaml) (config : DsmrConfig) :
  CONFIG_SCHEMA y = Valid config →
  libraries (to_code dir config)
  = ("rweather/Crypto", Some "0.4.0")
    :: ((λ dep, (dep, None))
          <$> default [] (default None (y_platformio_options y))).
Proof.
  intros H. apply CONFIG_SCHEMA_valid_rest in H as (_ & _ & O & _).
  unfold to_code, libraries. rewrite !omap_app, O.
  assert (L : ∀ deps : list string,
            omap (λ st, match st with
                        | add_library n v => Some (n, v)
                        | _ => None
                        end)
              ((λ dep, add_library dep None) <$> deps)
            = (λ dep, (dep, None)) <$> deps).
  { induction deps as [|d deps IH]; [done|]. cbn. by rewrite IH. }
  rewrite L.
  assert (C : omap (λ st, match st with
                          | add_library n v => Some (n, v)
                          | _ => None
                          end)
                match CONF_CUSTOM_OBIS_SENSORS config with
                | Some items => custom_sensors_code (CONF_ID config) 0 items
                | None => []
                end = []).
  { destruct (CONF_CUSTOM_OBIS_SENSORS config) as [items|]; [|done].
    apply custom_sensors_no_flag_no_library. }
  rewrite C.
  destruct (CONF_DECRYPTION_KEY config), (CONF_REQUEST_PIN config);
    cbn [omap list_omap app]; by rewrite app_nil_r.
Qed.

Lemma to_code_libraries_witness :
  libraries (to_code "" full_config)
  = [("rweather/Crypto", Some "0.4.0"); ("lib_a", None); ("lib_b", None)].
Proof.
  exact (to_code_libraries "" full_yaml full_config full_yaml_config).
Defined.

(** ** The custom sensors *)







Lemma sanitize_cons (c : ascii) (rest : string) :
  sanitize (String c rest)
  = String (if is_separator c then "_"%char else c) (sanitize rest).
Proof.
  unfold sanitize, is_separator. cbn [Py.replace]. f_equal.
  destruct (Ascii.eqb_spec c ":") as [->|N1]; [done|].
  destruct (Ascii.eqb_spec c ".") as [->|N2]; [done|].
  by destruct (Ascii.eqb_spec c "-") as [->|N3].
Qed.

(** X15: the OBIS code written into a sensor's ID keeps its length and
    every character but the separators [:], [.] and [-], each of which
    becomes an underscore; nothing else of the code is changed, and a code
    without separator is written as it is. *)
Theorem sanitize_separators (obis_code : string) :
  String.length (sanitize obis_code) = String.length obis_code
  ∧ all_chars (λ c, negb (is_separator c)) (sanitize obis_code) = true
  ∧ (∀ i c, String.get i obis_code = Some c →
       String.get i (sanitize obis_code)
       = Some (if is_separator c then "_"%char else c))
  ∧ (all_chars (λ c, negb (is_separator c)) obis_code = true →
     sanitize obis_code = obis_code).
Proof.
  induction obis_code as [|c rest (IH1 & IH2 & IH3 & IH4)]; [done|].
  rewrite sanitize_cons. cbn [String.length all_chars].
  split; [by rewrite IH1|]. split; [|split].
  - rewrite IH2. by destruct (is_separator c) eqn:E; [|rewrite E].
  - intros [|i] c' G; cbn [String.get] in *.
    + by injection G as ->.
    + by apply IH3.
  - intros [Hc Hr]%andb_prop. rewrite (IH4 Hr).
    by destruct (is_separator c).
Qed.

Lemma sanitize_separators_witness :
  sanitize "1_0" = "1_0"
  ∧ String.get 1 (sanitize "1-0:1.8.0") = Some "_"%char.
Proof.
  destruct (sanitize_separators "1_0") as (_ & _ & _ & S).
  destruct (sanitize_separators "1-0:1.8.0") as (_ & _ & G & _).
  split; [apply S; reflexivity | apply (G 1%nat "-"%char); reflexivity].
Defined.

Lemma all_chars_app (p : ascii → bool) (s1 s2 : string) :
  all_chars p (s1 +:+ s2) = all_chars p s1 && all_chars p s2.
Proof.
  induction s1 as [|c s1 IH]; [done|].
  change (p c && all_chars p (s1 +:+ s2) = p c && all_chars p s1 && all_chars p s2).
  by rewrite IH, andb_assoc.
Qed.









(** X17: for an entry of type [text_sensor], the unit, the accuracy, the
    device class, the state class and [force_update] never reach the
    generated code: two accepted entries of that type that agree on the
    code, the name, the icon and the three flags, written out or left to
    their defaults, generate the same statements. *)
Theorem custom_text_sensor_options_ignored
    (hub_id : string) (i : nat) (raw1 raw2 : CustomObisSensorYaml)
    (item1 item2 : CustomObisSensor) :
  CUSTOM_OBIS_SENSOR_SCHEMA raw1 = Valid item1 →
  CUSTOM_OBIS_SENSOR_SCHEMA raw2 = Valid item2 →
  Py.lower (y_type raw1) = "text_sensor" →
  Py.lower (y_type raw2) = "text_sensor" →
  y_code raw1 = y_code raw2 → y_name raw1 = y_name raw2 →
  y_icon raw1 = y_icon raw2 →
  default false (y_disabled_by_default raw1)
    = default false (y_disabled_by_default raw2) →
  default "" (y_entity_category raw1) = default "" (y_entity_category raw2) →
  default false (y_internal raw1) = default false (y_internal raw2) →
  custom_sensor_code hub_id i item1 = custom_sensor_code hub_id i item2.
Proof.
  intros V1 V2 T1 T2 Ec En Ei Ed Ee Ein.
  apply CUSTOM_OBIS_SENSOR_SCHEMA_valid in V1
    as (C1 & N1 & L1 & _ & I1 & _ & D1 & G1 & X1 & _).
  apply CUSTOM_OBIS_SENSOR_SCHEMA_valid in V2
    as (C2 & N2 & L2 & _ & I2 & _ & D2 & G2 & X2 & _).
  unfold custom_sensor_code.
  rewrite L1, L2, T1, T2, C1, C2, N1, N2, I1, I2, D1, D2, G1, G2, X1, X2.
  by rewrite Ec, En, Ei, Ed, Ee, Ein.
Qed.

Lemma custom_text_sensor_options_ignored_witness :
  custom_sensor_code "dsmr_hub" 0
    {| code := "0-0:96.1.0"; name := "Equipment"; type := "text_sensor";
       unit_of_measurement := Some "kWh"; accuracy_decimals := Some 3;
       device_class := Some "energy"; state_class := Some "measurement";
       icon := None; force_update := true; disabled_by_default := false;
       entity_category := ""; internal := false |}
  = custom_sensor_code "dsmr_hub" 0
      {| code := "0-0:96.1.0"; name := "Equipment"; type := "text_sensor";
         unit_of_measurement := None; accuracy_decimals := None;
         device_class := None; state_class := None;
         icon := None; force_update := false; disabled_by_default := false;
         entity_category := ""; internal := false |}.
Proof.
  apply (custom_text_sensor_options_ignored "dsmr_hub" 0
           verbose_text_entry
           (plain_entry "0-0:96.1.0" "Equipment" "text_sensor"));
    reflexivity.
Defined.

(** ** The standard sensor platforms *)

Lemma sensor_loop (hub : expr) (config : platform_config) :
  sensor.to_code_loop hub config
  = (text_sensor.configured config
       ≫= (λ '(key, conf),
             [new_sensor conf; add hub ("set_" +:+ key) [EEntity conf]]),
     (λ key, "F(" +:+ key +:+ ")") <$> (fst <$> text_sensor.configured config)).
Proof.
  induction config as [|[key item] rest IH]; [done|].
  cbn [sensor.to_code_loop]. rewrite IH.
  unfold text_sensor.configured. cbn [omap list_omap].
  destruct item as [conf|v]; [|done].
  by destruct (String.eqb key CONF_DSMR_CUSTOM_HUB_ID).
Qed.

(** X18: the code [sensor.py] generates is, for each key of the platform
    block that holds a sensor, in the order of the block, the creation of
    the sensor and its registration through [set_<key>], and then one
    definition of [DSMR_CUSTOM_SENSOR_LIST] that lists [F(key)] for every
    one of these keys in the same order: no key is left out of the
    macro. *)
Theorem sensor_to_code_output (config : platform_config) (hub_id : string) :
  getitem config CONF_DSMR_CUSTOM_HUB_ID = Some (ConfValue (VID hub_id)) →
  sensor.to_code config
  = Some ((text_sensor.configured config
             ≫= (λ '(key, conf),
                   [ new_sensor conf;
                     add (EVar hub_id) ("set_" +:+ key) [EEntity conf] ]))
          ++ [ add_define "DSMR_CUSTOM_SENSOR_LIST(F, sep)"
                 (macro_body ((λ key, "F(" +:+ key +:+ ")")
                                <$> (fst <$> text_sensor.configured config))) ]).
Proof.
  intros H. unfold sensor.to_code, get_hub. rewrite H.
  cbn [mbind option_bind]. by rewrite sensor_loop.
Qed.

Lemma sensor_to_code_output_witness :
  sensor.to_code
    [ ("dsmr_custom_hub_id", ConfValue (VID "dsmr_hub"));
      ("telegram", ConfDict [("id", VID "t")]) ]
  = Some [ new_sensor [("id", VID "t")];
           add (EVar "dsmr_hub") "set_telegram" [EEntity [("id", VID "t")]];
           add_define "DSMR_CUSTOM_SENSOR_LIST(F, sep)"
             (RawExpression "F(telegram)") ].
Proof.
  exact (sensor_to_code_output
           [ ("dsmr_custom_hub_id", ConfValue (VID "dsmr_hub"));
             ("telegram", ConfDict [("id", VID "t")]) ] "dsmr_hub" eq_refl).
Defined.

(** X19: the code [text_sensor.py] generates is, for each key of the
    platform block that holds a sensor, in the order of the block, the
    creation of the sensor and its registration, and then one definition
    of [DSMR_CUSTOM_TEXT_SENSOR_LIST] whose entries follow the order of
    the block. *)
Theorem text_sensor_to_code_output (config : platform_config) (hub_id : string) :
  getitem config CONF_DSMR_CUSTOM_HUB_ID = Some (ConfValue (VID hub_id)) →
  text_sensor.to_code config
  = Some ((text_sensor.configured config
             ≫= (λ '(key, conf),
                   [ new_text_sensor conf;
                     add (EVar hub_id) ("set_" +:+ key) [EEntity conf] ]))
          ++ [ add_define "DSMR_CUSTOM_TEXT_SENSOR_LIST(F, sep)"
                 (macro_body ((λ key, "F(" +:+ key +:+ ")")
                                <$> filter (λ key, key ≠ "telegram")
                                      (fst <$> text_sensor.configured config))) ]).
Proof.
  intros H. unfold text_sensor.to_code, get_hub. rewrite H.
  cbn [mbind option_bind]. by rewrite text_sensor_loop.
Qed.

Lemma text_sensor_to_code_output_witness :
  text_sensor.to_code sample_platform_config
  = Some [ new_text_sensor [("id", VID "dsmr_identification")];
           add (EVar "dsmr_hub") "set_identification"
             [EEntity [("id", VID "dsmr_identification")]];
           new_text_sensor [("id", VID "dsmr_telegram"); ("internal", VBool true)];
           add (EVar "dsmr_hub") "set_telegram"
             [EEntity [("id", VID "dsmr_telegram"); ("internal", VBool true)]];
           add_define "DSMR_CUSTOM_TEXT_SENSOR_LIST(F, sep)"
             (RawExpression "F(identification)") ].
Proof.
  exact (text_sensor_to_code_output sample_platform_config "dsmr_hub" eq_refl).
Defined.

Lemma configured_keys (config : platform_config) :
  NoDup (fst <$> config) → NoDup (fst <$> text_sensor.configured config).
Proof.
  induction config as [|[key item] rest IH]; [done|].
  rewrite fmap_cons, NoDup_cons. intros [Hk Hr].
  unfold text_sensor.configured. cbn [omap list_omap].
  assert (S : ∀ k, k ∈ fst <$> text_sensor.configured rest → k ∈ fst <$> rest).
  { intros k ([k' c] & -> & Hc)%list_elem_of_fmap.
    apply list_elem_of_omap in Hc as ([k2 it] & Hin & Heq).
    destruct it as [c'|]; [|discriminate Heq].
    destruct (String.eqb k2 CONF_DSMR_CUSTOM_HUB_ID); [discriminate Heq|].
    injection Heq as -> ->. apply list_elem_of_fmap. by exists (k', ConfDict c). }
  destruct item as [conf|v]; [|by apply IH].
  destruct (String.eqb key CONF_DSMR_CUSTOM_HUB_ID); [by apply IH|].
  rewrite fmap_cons. apply NoDup_cons. split; [|by apply IH].
  intros Hin. by apply Hk, S.
Qed.

(** X20: when the keys of the platform block are distinct, as the keys of
    a mapping are, no field is listed twice in either macro. *)
Theorem macro_entries_distinct (config : platform_config) :
  NoDup (fst <$> config) →
  NoDup ((λ key, "F(" +:+ key +:+ ")") <$> (fst <$> text_sensor.configured config))
  ∧ NoDup ((λ key, "F(" +:+ key +:+ ")")
             <$> filter (λ key, key ≠ "telegram")
                   (fst <$> text_sensor.configured config)).
Proof.
  intros H. apply configured_keys in H.
  assert (I : Inj eq eq (λ key, "F(" +:+ key +:+ ")")).
  { intros k1 k2. apply macro_entry_inj. }
  split; apply (NoDup_fmap_2 _); [done | by apply NoDup_filter].
Qed.

Lemma macro_entries_distinct_witness :
  NoDup ((λ key, "F(" +:+ key +:+ ")")
           <$> (fst <$> text_sensor.configured sample_platform_config)).
Proof.
  assert (N : NoDup (fst <$> sample_platform_config)).
  { repeat (apply NoDup_cons; split;
              [by intros ?%(bool_decide_pack _)|]).
    apply NoDup_nil_2. }
  exact (proj1 (macro_entries_distinct sample_platform_config N)).
Defined.





(** ** The characters of a validated key *)

Lemma pair_format_chars (a b : ascii) (n : Z) :
  Py.int16 (String a (String b EmptyString)) = Some n →
  all_chars is_key_char (Py.format_02X n) = true
  ∧ (negb (Ascii.eqb a "-") = true →
     all_chars Py.is_hex (Py.format_02X n) = true).
Proof.
  intros E.
  pose proof (forall_ascii2
    (λ a b, match Py.int16 (String a (String b EmptyString)) with
            | Some n =>
                all_chars is_key_char (Py.format_02X n)
                && implb (negb (Ascii.eqb a "-"))
                     (all_chars Py.is_hex (Py.format_02X n))
            | None => true
            end)) as H.
  specialize (H ltac:(vm_compute; reflexivity) a b). cbv beta in H.
  rewrite E in H. apply andb_prop in H as [H1 H2]. split; [done|].
  intros S. by rewrite S in H2.
Qed.

Lemma parts_format_chars (value : string) (ns : list Z) :
  forallb two_chars (parts_of value) = true →
  for_each read_part (parts_of value) = Valid ns →
  all_chars is_key_char (Py.join "" (Py.format_02X <$> ns)) = true
  ∧ (all_chars (λ c, negb (Ascii.eqb c "-")) value = true →
     all_chars Py.is_hex (Py.join "" (Py.format_02X <$> ns)) = true).
Proof.
  revert ns.
  induction value as [|a|a b rest IH] using string_pair_ind; intros ns Hp E.
  - by injection E as <-.
  - discriminate.
  - cbn in Hp. cbn [parts_of] in E. rewrite for_each_cons in E.
    destruct (read_part (String a (String b EmptyString))) as [n|] eqn:R;
      [|discriminate E].
    unfold read_part in R.
    destruct (Py.int16 (String a (String b EmptyString))) as [n'|] eqn:En;
      [injection R as ->|discriminate R].
    cbn [mbind outcome_bind] in E.
    destruct (for_each read_part (parts_of rest)) as [ms|] eqn:Em;
      [|discriminate E].
    injection E as <-.
    rewrite fmap_cons, join_empty_cons, !all_chars_app.
    destruct (pair_format_chars a b n En) as [C1 C2].
    destruct (IH ms Hp eq_refl) as [I1 I2].
    split; [by rewrite C1, I1|].
    cbn [all_chars]. intros [Ha [Hb Hr]%andb_prop]%andb_prop.
    rewrite (I2 Hr), andb_true_r. by apply C2.
Qed.

(** X22: whatever key validation accepts, the key it returns holds only
    decimal digits, the capitals [A] to [F] and minus signs: no lower-case
    letter, no plus sign and no white space of the key written reaches the
    hub; and when the key written holds no minus sign, the key returned is
    made of hexadecimal digits only. *)
Theorem validate_key_result_chars (s k : string) :
  _validate_key s = Valid k →
  all_chars is_key_char k = true
  ∧ (all_chars (λ c, negb (Ascii.eqb c "-")) s = true →
     all_chars Py.is_hex k = true).
Proof.
  intros E.
  assert (V : is_valid (_validate_key s) = true) by by rewrite E.
  apply validate_key_length in V as [->|L].
  - by injection E as <-.
  - rewrite (validate_key_32 s L) in E.
    destruct (for_each read_part (parts_of s)) as [ns|] eqn:En;
      [|discriminate E].
    injection E as <-.
    pose proof (parts_of_count s 16) as C. rewrite L in C.
    apply andb_prop in C as [_ C].
    by apply parts_format_chars.
Qed.

Lemma validate_key_result_chars_witness :
  all_chars is_key_char signed_key_result = true.
Proof.
  apply (proj1 (validate_key_result_chars signed_key signed_key_result
                  ltac:(vm_compute; reflexivity))).
Defined.
